(** * cxxitimer: the interval-timer state machine of [src/cxxitimer.cpp]

    A shallow embedding of the library's [ITimer] class, of its three
    concrete subclasses [ITimer_Real], [ITimer_Virtual], [ITimer_Prof] and of
    the [timeval] arithmetic they rest on, followed by the properties the
    specification states about them.

    Conventions of the embedding:
    - [double] is the primitive IEEE 754 binary64 ([PrimFloat.float]); the
      arithmetic of the source ([+], [*], [/], [<=]) is the primitive one.
    - [time_t], [suseconds_t] and [int] are [Z]; a [timeval] is a record of
      two of them, an [itimerval] a record of two [timeval]s, as in
      [<sys/time.h>].
    - the operating system ([setitimer], [getitimer]) and the one conversion
      C++ leaves open (a [double] that does not fit a [long]) are an
      interface, [Host]; every general theorem holds for every host.
    - a member function is a state transformer over the object and the
      kernel, which may end in a thrown exception. *)

From Stdlib Require Import ZArith Bool String List Lia.
From Stdlib Require Import Floats.
From coqutil Require Import Byte Word.LittleEndianList.
Import ListNotations.

Local Open Scope Z_scope.

(** ** [<sys/time.h>] *)

Record timeval : Type := mk_timeval {
  tv_sec : Z;   (* time_t *)
  tv_usec : Z   (* suseconds_t *)
}.

Record itimerval : Type := mk_itimerval {
  it_interval : timeval;
  it_value : timeval
}.

Definition ITIMER_REAL : Z := 0.
Definition ITIMER_VIRTUAL : Z := 1.
Definition ITIMER_PROF : Z := 2.

(** [EX_SOFTWARE] of [<sysexits.h>]. *)
Definition EX_SOFTWARE : Z := 70.

(** The range of a [long] (LP64). *)
Definition LONG_MIN : Z := - 2 ^ 63.
Definition LONG_MAX : Z := 2 ^ 63 - 1.

Definition in_long (z : Z) : bool := (LONG_MIN <=? z) && (LONG_MAX >=? z).

Definition timeval_in_long (t : timeval) : Prop :=
  in_long (tv_sec t) = true /\ in_long (tv_usec t) = true.

(** ** Conversions between [long] and [double], and [fmod] *)

(** [static_cast<double>(z)]: the nearest binary64, ties to even. *)
Definition double_of_long (z : Z) : float :=
  SF2Prim (binary_normalize prec emax z 0 false).

(** The integer a finite [double] truncates to (toward zero); [None] for
    NaN and the infinities. *)
Definition trunc_double (x : float) : option Z :=
  match Prim2SF x with
  | S754_zero _ => Some 0
  | S754_finite s m e =>
      let a := if 0 <=? e then Z.pos m * 2 ^ e else Z.pos m / 2 ^ (- e) in
      Some (if s then - a else a)
  | S754_infinity _ | S754_nan => None
  end.

(** [fmod(x, y)] of [<cmath>]: the exact remainder [x - n*y], [n] being
    [x/y] truncated, with the sign of [x]. *)
Definition fmod (x y : float) : float :=
  match Prim2SF x, Prim2SF y with
  | S754_nan, _ | _, S754_nan => nan
  | S754_infinity _, _ => nan
  | _, S754_zero _ => nan
  | S754_zero _, _ => x
  | S754_finite _ _ _, S754_infinity _ => x
  | S754_finite sx mx ex, S754_finite _ my ey =>
      let e := Z.min ex ey in
      let r := Z.rem (Z.pos mx * 2 ^ (ex - e)) (Z.pos my * 2 ^ (ey - e)) in
      SF2Prim (binary_normalize prec emax (if sx then - r else r) e sx)
  end.

(** The kinds of [double] a speed factor can be, read off its IEEE 754
    decomposition: a zero of either sign, a negative number or minus
    infinity, a NaN, an infinity, a finite number above zero. *)
Definition class_zero (x : float) : bool :=
  match Prim2SF x with S754_zero _ => true | _ => false end.

Definition class_negative (x : float) : bool :=
  match Prim2SF x with
  | S754_finite true _ _ | S754_infinity true => true
  | _ => false
  end.

Definition class_nan (x : float) : bool :=
  match Prim2SF x with S754_nan => true | _ => false end.

Definition class_infinite (x : float) : bool :=
  match Prim2SF x with S754_infinity _ => true | _ => false end.

Definition finite_positive (x : float) : bool :=
  match Prim2SF x with S754_finite false _ _ => true | _ => false end.

(** ** The host: conversion overflow and the interval-timer system calls *)

(** What a system call leaves behind: its return value, [errno], and the
    content of the [itimerval] it was given to fill (which every caller in
    the source zero-initialises, [itimerval val {}], or omits). *)
Record sysret : Type := mk_sysret {
  rc : Z;
  errno : Z;
  out : itimerval
}.

Class Host : Type := {
  (** the state of the kernel's three interval timers, and of whatever
      decides how they count down *)
  kernel : Type;
  (** [setitimer(which, &new_value, &old_value)] *)
  setitimer : Z -> itimerval -> kernel -> sysret * kernel;
  (** [getitimer(which, &curr_value)] *)
  getitimer : Z -> kernel -> sysret * kernel;
  (** [static_cast<long>(x)] when the truncation of [x] is no [long], or [x]
      is NaN or infinite: the language defines no result, the hardware's
      conversion instruction gives one. *)
  long_of_double_overflow : float -> Z
}.

(** "On success, zero is returned. On error, -1 is returned, and errno is
    set to indicate the error" (man getitimer). *)
Definition succeeded (r : sysret) : Prop := rc r = 0.
Definition failed (r : sysret) : Prop := rc r = -1.

Section Cxxitimer.

Context {host : Host}.

(** [static_cast<time_t>(x)], [static_cast<suseconds_t>(x)]. *)
Definition long_of_double (x : float) : Z :=
  match trunc_double x with
  | Some z => if in_long z then z else long_of_double_overflow x
  | None => long_of_double_overflow x
  end.

(** ** Duration arithmetic (cxxitimer.cpp, lines 278-334) *)

(** number of usec per second *)
Definition USEC_PER_SEC : float := double_of_long 1000000.

Definition timeval_to_double (time : timeval) : float :=
  (double_of_long (tv_sec time) + double_of_long (tv_usec time) / USEC_PER_SEC)%float.

Definition double_to_timeval (time : float) : timeval :=
  {| tv_sec := long_of_double time;
     tv_usec := long_of_double (fmod time 1 * USEC_PER_SEC)%float |}.

(** [left *= right] on a [timeval]; the value [left] has afterwards. *)
Definition timeval_mul_assign (left : timeval) (right : float) : timeval :=
  let timer_value := (timeval_to_double left * right)%float in
  double_to_timeval timer_value.

(** [left *= right] on an [itimerval]. *)
Definition itimerval_mul_assign (left : itimerval) (right : float) : itimerval :=
  {| it_interval := timeval_mul_assign (it_interval left) right;
     it_value := timeval_mul_assign (it_value left) right |}.

(** [left * right] *)
Definition timeval_mul (left : timeval) (right : float) : timeval :=
  let ret_val := left in
  timeval_mul_assign ret_val right.

Definition itimerval_mul (left : itimerval) (right : float) : itimerval :=
  let ret_val := left in
  itimerval_mul_assign ret_val right.

(** [left /= right] on a [timeval]. *)
Definition timeval_div_assign (left : timeval) (right : float) : timeval :=
  let timer_value := (timeval_to_double left / right)%float in
  double_to_timeval timer_value.

Definition itimerval_div_assign (left : itimerval) (right : float) : itimerval :=
  {| it_interval := timeval_div_assign (it_interval left) right;
     it_value := timeval_div_assign (it_value left) right |}.

(** [left / right] *)
Definition timeval_div (left : timeval) (right : float) : timeval :=
  let ret_val := left in
  timeval_div_assign ret_val right.

Definition itimerval_div (left : itimerval) (right : float) : itimerval :=
  let ret_val := left in
  itimerval_div_assign ret_val right.

(** ** Exceptions *)

(** The exceptions the library throws, with their [what()] text; a
    [system_error] also carries the [errno] it was built from. *)
Inductive exception : Type :=
| logic_error (what : string)
| runtime_error (what : string)
| invalid_argument (what : string)
| system_error (code : Z) (what : string).

(** ** File streams *)

(** A [std::ofstream]: its fail state and the bytes put so far. (A write
    that the file system refuses is not modelled.) *)
Record ofstream : Type := mk_ofstream {
  o_fail : bool;
  o_data : list byte
}.

(** A [std::ifstream]: its fail state and the bytes still to be read. *)
Record ifstream : Type := mk_ifstream {
  i_fail : bool;
  i_rest : list byte
}.

(** [fstream.write(s, n)], [s] holding the [n] bytes [bs]: a stream in a
    fail state writes nothing. *)
Definition ofstream_write (fstream : ofstream) (bs : list byte) : ofstream :=
  if o_fail fstream then fstream
  else {| o_fail := false; o_data := o_data fstream ++ bs |}.

(** [fstream.read(s, n)] into a buffer holding [buf]: the buffer afterwards
    and the stream. A stream in a fail state reads nothing; a stream that
    ends early stores what it has and fails. *)
Definition ifstream_read (fstream : ifstream) (n : nat) (buf : list byte)
  : list byte * ifstream :=
  if i_fail fstream then (buf, fstream)
  else
    let got := firstn n (i_rest fstream) in
    (got ++ skipn (length got) buf,
     {| i_fail := (length got <? n)%nat; i_rest := skipn n (i_rest fstream) |}).

(** The object representation of a [long], a [timeval] and an [itimerval]
    (LP64, little-endian, two's complement; [sizeof(itimerval)] is 32). *)
Definition bytes_of_long (z : Z) : list byte := le_split 8 z.

Definition long_of_bytes (bs : list byte) : Z :=
  let u := le_combine (firstn 8 bs) in
  if u <? 2 ^ 63 then u else u - 2 ^ 64.

Definition bytes_of_timeval (t : timeval) : list byte :=
  bytes_of_long (tv_sec t) ++ bytes_of_long (tv_usec t).

Definition timeval_of_bytes (bs : list byte) : timeval :=
  {| tv_sec := long_of_bytes bs; tv_usec := long_of_bytes (skipn 8 bs) |}.

Definition bytes_of_itimerval (v : itimerval) : list byte :=
  bytes_of_timeval (it_interval v) ++ bytes_of_timeval (it_value v).

Definition itimerval_of_bytes (bs : list byte) : itimerval :=
  {| it_interval := timeval_of_bytes bs;
     it_value := timeval_of_bytes (skipn 16 bs) |}.

Definition sizeof_itimerval : nat := 32.

(** ** class ITimer *)

Record ITimer : Type := mk_ITimer {
  timer_value : timeval;     (* timer value (speed factor 1.0) *)
  timer_interval : timeval;  (* timer interval (speed factor 1.0) *)
  type : Z;                  (* timer type (REAL/VIRTUAL/PROF) *)
  speed_factor : float;      (* speed adjustment factor *)
  running : bool             (* timer running indicator *)
}.

(** timeval to stop timer *)
Definition STOP_TIMER : itimerval :=
  {| it_interval := {| tv_sec := 0; tv_usec := 0 |};
     it_value := {| tv_sec := 0; tv_usec := 0 |} |}.


(** [itimerval val {}] *)
Definition zero_itimerval : itimerval :=
  {| it_interval := {| tv_sec := 0; tv_usec := 0 |};
     it_value := {| tv_sec := 0; tv_usec := 0 |} |}.

(** What a member function runs in: the object and the kernel. *)
Record World : Type := mk_World {
  self : ITimer;
  os : kernel
}.

(** A member function returning [A]: it ends normally with an [A] or by
    throwing, and leaves a world either way. *)
Definition M (A : Type) : Type := World -> (exception + A) * World.

Definition ret {A} (a : A) : M A := fun w => (inr a, w).

Definition throw {A} (e : exception) : M A := fun w => (inl e, w).

Definition bind {A B} (m : M A) (f : A -> M B) : M B :=
  fun w =>
    match m w with
    | (inl e, w') => (inl e, w')
    | (inr a, w') => f a w'
    end.

Notation "x <- m ;; k" := (bind m (fun x => k))
  (at level 61, m at next level, right associativity).
Notation "m ;;; k" := (bind m (fun _ => k))
  (at level 61, right associativity).

Definition this : M ITimer := fun w => (inr (self w), w).

Definition assign (f : ITimer -> ITimer) : M unit :=
  fun w => (inr tt, {| self := f (self w); os := os w |}).

Definition set_timer_value (v : timeval) (t : ITimer) : ITimer :=
  {| timer_value := v; timer_interval := timer_interval t; type := type t;
     speed_factor := speed_factor t; running := running t |}.

Definition set_timer_interval (v : timeval) (t : ITimer) : ITimer :=
  {| timer_value := timer_value t; timer_interval := v; type := type t;
     speed_factor := speed_factor t; running := running t |}.

Definition set_speed (f : float) (t : ITimer) : ITimer :=
  {| timer_value := timer_value t; timer_interval := timer_interval t;
     type := type t; speed_factor := f; running := running t |}.

Definition set_running (b : bool) (t : ITimer) : ITimer :=
  {| timer_value := timer_value t; timer_interval := timer_interval t;
     type := type t; speed_factor := speed_factor t; running := b |}.

Definition call_setitimer (which : Z) (new_value : itimerval) : M sysret :=
  fun w =>
    let (r, k) := setitimer which new_value (os w) in
    (inr r, {| self := self w; os := k |}).

Definition call_getitimer (which : Z) : M sysret :=
  fun w =>
    let (r, k) := getitimer which (os w) in
    (inr r, {| self := self w; os := k |}).

(** *** Constructors (lines 26-56) *)

Definition ITimer_of_timeval (type : Z) (interval : timeval) : ITimer :=
  {| timer_value := interval; timer_interval := interval; type := type;
     speed_factor := 1; running := false |}.

Definition ITimer_of_double (type : Z) (interval : float) : ITimer :=
  {| timer_value := double_to_timeval interval;
     timer_interval := double_to_timeval interval; type := type;
     speed_factor := 1; running := false |}.

Definition ITimer_of_timevals (type : Z) (interval value : timeval) : ITimer :=
  {| timer_value := value; timer_interval := interval; type := type;
     speed_factor := 1; running := false |}.

Definition ITimer_of_doubles (type : Z) (interval value : float) : ITimer :=
  {| timer_value := double_to_timeval value;
     timer_interval := double_to_timeval interval; type := type;
     speed_factor := 1; running := false |}.

(** The four overloads a subclass constructor forwards to [ITimer]. *)
Inductive ctor_args : Type :=
| of_timeval (interval : timeval)
| of_timevals (interval value : timeval)
| of_double (interval : float)
| of_doubles (interval value : float).

Definition ITimer_ctor (type : Z) (a : ctor_args) : ITimer :=
  match a with
  | of_timeval interval => ITimer_of_timeval type interval
  | of_timevals interval value => ITimer_of_timevals type interval value
  | of_double interval => ITimer_of_double type interval
  | of_doubles interval value => ITimer_of_doubles type interval value
  end.

(** *** Member functions (lines 71-188) *)

Definition adjust_speed (new_factor : float) : M unit :=
  t <- this ;;
  if negb (running t) then throw (runtime_error "timer not running") else
  r <- call_setitimer (type t) STOP_TIMER ;;
  let val := out r in
  if negb (rc r =? 0)
  then throw (system_error (errno r) "call of setitimer failed") else
  (* set timer interval *)
  let val := {| it_interval := timeval_div (timer_interval t) new_factor;
                it_value := it_value val |} in
  (* scale timer value *)
  let val := {| it_interval := it_interval val;
                it_value := timeval_mul_assign (it_value val)
                              (speed_factor t / new_factor)%float |} in
  (* set new timer value *)
  r <- call_setitimer (type t) val ;;
  if negb (rc r =? 0)
  then throw (system_error (errno r) "call of setitimer failed") else
  (* save speed factor *)
  assign (set_speed new_factor).

Definition start : M unit :=
  t <- this ;;
  if running t then throw (logic_error "timer already started") else
  (* create scaled timer value *)
  let timer_val := {| it_interval := timeval_div (timer_interval t) (speed_factor t);
                      it_value := timeval_div (timer_value t) (speed_factor t) |} in
  if tv_sec (it_interval timer_val) <? 0
  then throw (runtime_error "timer interval is negative") else
  if tv_sec (it_value timer_val) <? 0
  then throw (runtime_error "timer value is negative") else
  if (tv_sec (it_interval timer_val) =? 0) && (tv_usec (it_interval timer_val) =? 0)
  then throw (runtime_error "invalid timer values due to to a to small speed factor") else
  (* start timer *)
  r <- call_setitimer (type t) timer_val ;;
  if rc r <? 0
  then throw (system_error (errno r) "call of setitimer failed") else
  assign (set_running true).

Definition stop : M unit :=
  t <- this ;;
  if negb (running t) then throw (runtime_error "timer already stopped") else
  (* stop timer and save value *)
  r <- call_setitimer (type t) STOP_TIMER ;;
  let timer_val := out r in
  if rc r <? 0
  then throw (system_error (errno r) "call of setitimer failed") else
  (* normalize value *)
  assign (set_timer_value (timeval_mul (it_value timer_val) (speed_factor t))) ;;;
  assign (set_running false).

Definition set_speed_factor (factor : float) : M unit :=
  (* check speed_factor *)
  if (factor <=? 0)%float
  then throw (invalid_argument "negative values not allowed") else
  if is_nan factor || is_infinity factor
  then throw (invalid_argument "invalid double value") else
  t <- this ;;
  if running t then adjust_speed factor
  else assign (set_speed factor).

Definition set_interval_value (interval value : timeval) : M unit :=
  t <- this ;;
  if running t
  then throw (logic_error "cannot set interval/value if timer is running") else
  assign (set_timer_interval interval) ;;;
  assign (set_timer_value value).

Definition set_interval_value_double (interval value : float) : M unit :=
  set_interval_value (double_to_timeval interval) (double_to_timeval value).

(** [set_interval], both overloads, inline in the header. *)
Definition set_interval (interval : timeval) : M unit :=
  set_interval_value interval interval.

Definition set_interval_double (interval : float) : M unit :=
  set_interval_value_double interval interval.

Definition set_speed_to_normal : M unit :=
  t <- this ;;
  (* adjust speed if running *)
  if running t then adjust_speed 1
  else assign (set_speed 1).

Definition to_fstream (fstream : ofstream) : M ofstream :=
  t <- this ;;
  let val := zero_itimerval in
  val <- (if running t
          then
            r <- call_getitimer (type t) ;;
            let val := out r in
            if rc r <? 0
            then throw (system_error (errno r) "call of getitimer failed") else
            ret {| it_interval := it_interval val;
                   it_value := timeval_mul_assign (it_value val) (speed_factor t) |}
          else
            ret {| it_interval := it_interval val; it_value := timer_value t |}) ;;
  let val := {| it_interval := timer_interval t; it_value := it_value val |} in
  ret (ofstream_write fstream (bytes_of_itimerval val)).

Definition from_fstream (fstream : ifstream) : M ifstream :=
  t <- this ;;
  if running t then throw (logic_error "timer is running") else
  let val := zero_itimerval in
  let (buf, fstream) :=
    ifstream_read fstream sizeof_itimerval (bytes_of_itimerval val) in
  let val := itimerval_of_bytes buf in
  assign (set_timer_interval (it_interval val)) ;;;
  assign (set_timer_value (it_value val)) ;;;
  ret fstream.

Definition get_timer_value : M timeval :=
  t <- this ;;
  if running t
  then
    r <- call_getitimer (type t) ;;
    let temp := out r in
    if rc r <? 0
    then throw (system_error (errno r) "call of getitimer failed") else
    ret (it_value temp)
  else ret (timer_value t).

Definition is_running : M bool :=
  t <- this ;;
  ret (running t).

(** *** Destructor (lines 59-69) *)

(** How a destructor ends: the object is gone, or [exit] was called. *)
Inductive dtor_outcome : Type :=
| destroyed
| exited (status : Z).

Definition ITimer_dtor (w : World) : dtor_outcome * kernel :=
  (* stop timer if running *)
  if running (self w)
  then
    match stop w with
    | (inr _, w') => (destroyed, os w')
    | (inl _, w') => (exited EX_SOFTWARE, os w')
    end
  else (destroyed, os w).

(** ** The three timer types (lines 22-24 and 190-276) *)

(** The static members [instance_exists] of the three subclasses. *)
Record statics : Type := mk_statics {
  ITimer_Real_instance_exists : bool;
  ITimer_Virtual_instance_exists : bool;
  ITimer_Prof_instance_exists : bool
}.

(** Their initial values. *)
Definition statics_init : statics :=
  {| ITimer_Real_instance_exists := false;
     ITimer_Virtual_instance_exists := false;
     ITimer_Prof_instance_exists := false |}.

(** A subclass constructor: the base subobject is built first, then the
    body runs. When the body throws, the base subobject, which is not
    running, is destroyed again and no object exists. *)
Definition ITimer_Real_ctor (a : ctor_args) (s : statics)
  : (exception + ITimer) * statics :=
  let base := ITimer_ctor ITIMER_REAL a in
  (* prevent multiple instances *)
  if ITimer_Real_instance_exists s then (inl (logic_error "instance exists"), s)
  else (inr base,
        {| ITimer_Real_instance_exists := true;
           ITimer_Virtual_instance_exists := ITimer_Virtual_instance_exists s;
           ITimer_Prof_instance_exists := ITimer_Prof_instance_exists s |}).

Definition ITimer_Virtual_ctor (a : ctor_args) (s : statics)
  : (exception + ITimer) * statics :=
  let base := ITimer_ctor ITIMER_VIRTUAL a in
  (* prevent multiple instances *)
  if ITimer_Virtual_instance_exists s then (inl (logic_error "instance exists"), s)
  else (inr base,
        {| ITimer_Real_instance_exists := ITimer_Real_instance_exists s;
           ITimer_Virtual_instance_exists := true;
           ITimer_Prof_instance_exists := ITimer_Prof_instance_exists s |}).

Definition ITimer_Prof_ctor (a : ctor_args) (s : statics)
  : (exception + ITimer) * statics :=
  let base := ITimer_ctor ITIMER_PROF a in
  (* prevent multiple instances *)
  if ITimer_Prof_instance_exists s then (inl (logic_error "instance exists"), s)
  else (inr base,
        {| ITimer_Real_instance_exists := ITimer_Real_instance_exists s;
           ITimer_Virtual_instance_exists := ITimer_Virtual_instance_exists s;
           ITimer_Prof_instance_exists := true |}).

(** A subclass destructor: its body, then the destructor of [ITimer]. *)
Definition ITimer_Real_dtor (w : World) (s : statics)
  : dtor_outcome * kernel * statics :=
  (* allow new instance *)
  let s := {| ITimer_Real_instance_exists := false;
              ITimer_Virtual_instance_exists := ITimer_Virtual_instance_exists s;
              ITimer_Prof_instance_exists := ITimer_Prof_instance_exists s |} in
  (ITimer_dtor w, s).

Definition ITimer_Virtual_dtor (w : World) (s : statics)
  : dtor_outcome * kernel * statics :=
  (* allow new instance *)
  let s := {| ITimer_Real_instance_exists := ITimer_Real_instance_exists s;
              ITimer_Virtual_instance_exists := false;
              ITimer_Prof_instance_exists := ITimer_Prof_instance_exists s |} in
  (ITimer_dtor w, s).

Definition ITimer_Prof_dtor (w : World) (s : statics)
  : dtor_outcome * kernel * statics :=
  (* allow new instance *)
  let s := {| ITimer_Real_instance_exists := ITimer_Real_instance_exists s;
              ITimer_Virtual_instance_exists := ITimer_Virtual_instance_exists s;
              ITimer_Prof_instance_exists := false |} in
  (ITimer_dtor w, s).

End Cxxitimer.

(** ** A process using the library *)

(** The three concrete classes. *)
Inductive timer_class : Type := Real | Virtual | Prof.

Definition timer_class_eqb (a b : timer_class) : bool :=
  match a, b with
  | Real, Real | Virtual, Virtual | Prof, Prof => true
  | _, _ => false
  end.

Section Process.

Context {host : Host}.

(** The clock a class passes to [ITimer]. *)
Definition which_of (c : timer_class) : Z :=
  match c with
  | Real => ITIMER_REAL
  | Virtual => ITIMER_VIRTUAL
  | Prof => ITIMER_PROF
  end.

Definition instance_exists (c : timer_class) (s : statics) : bool :=
  match c with
  | Real => ITimer_Real_instance_exists s
  | Virtual => ITimer_Virtual_instance_exists s
  | Prof => ITimer_Prof_instance_exists s
  end.

Definition construct (c : timer_class) : ctor_args -> statics -> (exception + ITimer) * statics :=
  match c with
  | Real => ITimer_Real_ctor
  | Virtual => ITimer_Virtual_ctor
  | Prof => ITimer_Prof_ctor
  end.

Definition destroy (c : timer_class) : World -> statics -> dtor_outcome * kernel * statics :=
  match c with
  | Real => ITimer_Real_dtor
  | Virtual => ITimer_Virtual_dtor
  | Prof => ITimer_Prof_dtor
  end.

(** The public member functions of [ITimer]. *)
Inductive member : forall {A : Type}, M A -> Prop :=
| member_start : member start
| member_stop : member stop
| member_set_speed_factor factor : member (set_speed_factor factor)
| member_set_interval interval : member (set_interval interval)
| member_set_interval_double interval : member (set_interval_double interval)
| member_set_interval_value interval value :
    member (set_interval_value interval value)
| member_set_interval_value_double interval value :
    member (set_interval_value_double interval value)
| member_set_speed_to_normal : member set_speed_to_normal
| member_to_fstream fstream : member (to_fstream fstream)
| member_from_fstream fstream : member (from_fstream fstream)
| member_get_timer_value : member get_timer_value
| member_is_running : member is_running.

(** A process: the static flags, the kernel, and the timer objects that
    are alive (constructed, not yet destroyed), each with its class. *)
Record process : Type := mk_process {
  globals : statics;
  kern : kernel;
  objects : list (timer_class * ITimer)
}.

Definition process_init (k : kernel) : process :=
  {| globals := statics_init; kern := k; objects := [] |}.

Fixpoint replace_nth {A} (n : nat) (a : A) (l : list A) : list A :=
  match l, n with
  | [], _ => []
  | _ :: l, O => a :: l
  | x :: l, S n => x :: replace_nth n a l
  end.

Fixpoint remove_nth {A} (n : nat) (l : list A) : list A :=
  match l, n with
  | [], _ => []
  | _ :: l, O => l
  | x :: l, S n => x :: remove_nth n l
  end.

(** What a program can do with the library, one action at a time: construct
    a timer of some class (which may throw), call a member function of a
    live timer (which may throw), destroy a live timer. A destructor that
    calls [exit] ends the process: it has no next state. *)
Inductive step : process -> process -> Prop :=
| step_construct c a p t s' :
    construct c a (globals p) = (inr t, s') ->
    step p {| globals := s'; kern := kern p; objects := (c, t) :: objects p |}
| step_construct_throws c a p e s' :
    construct c a (globals p) = (inl e, s') ->
    step p {| globals := s'; kern := kern p; objects := objects p |}
| step_call {A} (m : M A) p i c t r w' :
    nth_error (objects p) i = Some (c, t) ->
    member m ->
    m {| self := t; os := kern p |} = (r, w') ->
    step p {| globals := globals p; kern := os w';
              objects := replace_nth i (c, self w') (objects p) |}
| step_destroy p i c t k' s' :
    nth_error (objects p) i = Some (c, t) ->
    destroy c {| self := t; os := kern p |} (globals p) = (destroyed, k', s') ->
    step p {| globals := s'; kern := k'; objects := remove_nth i (objects p) |}.

Inductive reachable : process -> Prop :=
| reachable_init k : reachable (process_init k)
| reachable_step p p' : reachable p -> step p p' -> reachable p'.

(** The number of live timers of a class. *)
Definition live (c : timer_class) (l : list (timer_class * ITimer)) : nat :=
  length (filter (fun o => timer_class_eqb (fst o) c) l).

End Process.

(** ** Checking a scaling on every sub-second duration of a range *)

Section Ranges.

Context {host : Host}.

(** [scale] gives back [{0, usec}] or one microsecond less. *)
Definition loses_at_most_one (scale : timeval -> timeval) (usec : Z) : bool :=
  let r := scale {| tv_sec := 0; tv_usec := usec |} in
  (tv_sec r =? 0) && ((tv_usec r =? usec) || (tv_usec r =? usec - 1)).

(** [p] holds of [lo], [lo + 1], ..., [lo + n - 1]. *)
Fixpoint all_from (p : Z -> bool) (lo : Z) (n : nat) : bool :=
  match n with
  | O => true
  | S n => if p lo then all_from p (lo + 1) n else false
  end.

End Ranges.

(** ** A concrete host: Linux on x86-64, with clocks that stand still *)

Module Linux.

(** [EPERM] and [EINVAL] of [<errno.h>]. *)
Definition EPERM : Z := 1.
Definition EINVAL : Z := 22.

(** The kernel's three interval timers of the process, and whether a
    seccomp filter answers [EPERM] to [setitimer] and [getitimer]. Between
    two calls no time passes. *)
Record timers : Type := mk_timers {
  real : itimerval;
  virt : itimerval;
  prof : itimerval;
  denied : bool
}.

Definition disarmed : itimerval :=
  {| it_interval := mk_timeval 0 0; it_value := mk_timeval 0 0 |}.

Definition boot : timers :=
  {| real := disarmed; virt := disarmed; prof := disarmed; denied := false |}.

(** The kernel accepts a [timeval] with [0 <= tv_sec] and
    [0 <= tv_usec <= 999999]. *)
Definition timeval_valid (t : timeval) : bool :=
  (0 <=? tv_sec t) && (0 <=? tv_usec t) && (999999 >=? tv_usec t).

Definition fail (code : Z) : sysret :=
  {| rc := -1; errno := code; out := disarmed |}.

Definition ok (old : itimerval) : sysret :=
  {| rc := 0; errno := 0; out := old |}.

Definition sys_setitimer (which : Z) (v : itimerval) (k : timers) : sysret * timers :=
  if denied k then (fail EPERM, k) else
  if timeval_valid (it_interval v) && timeval_valid (it_value v) then
    match which with
    | 0 => (ok (real k),
            {| real := v; virt := virt k; prof := prof k; denied := false |})
    | 1 => (ok (virt k),
            {| real := real k; virt := v; prof := prof k; denied := false |})
    | 2 => (ok (prof k),
            {| real := real k; virt := virt k; prof := v; denied := false |})
    | _ => (fail EINVAL, k)
    end
  else (fail EINVAL, k).

Definition sys_getitimer (which : Z) (k : timers) : sysret * timers :=
  if denied k then (fail EPERM, k) else
  match which with
  | 0 => (ok (real k), k)
  | 1 => (ok (virt k), k)
  | 2 => (ok (prof k), k)
  | _ => (fail EINVAL, k)
  end.

(** [cvttsd2si] answers the "integer indefinite" value when the result does
    not fit. *)
Definition cvttsd2si_indefinite (x : float) : Z := LONG_MIN.

Definition host : Host :=
  {| kernel := timers;
     setitimer := sys_setitimer;
     getitimer := sys_getitimer;
     long_of_double_overflow := cvttsd2si_indefinite |}.

End Linux.

(** ** A run on that host *)

Module Example.

#[local] Existing Instance Linux.host.

(** The kernel before any timer is set. *)
Definition boot : kernel := Linux.boot.

Definition sec (n : Z) : timeval := {| tv_sec := n; tv_usec := 0 |}.
Definition half_sec : timeval := {| tv_sec := 0; tv_usec := 500000 |}.

Definition timer (value interval : timeval) (factor : float) (run : bool) : ITimer :=
  {| timer_value := value; timer_interval := interval; type := ITIMER_REAL;
     speed_factor := factor; running := run |}.

(** The real-time clock set to the given interval and value. *)
Definition armed (interval value : timeval) : kernel :=
  {| Linux.real := {| it_interval := interval; it_value := value |};
     Linux.virt := Linux.disarmed; Linux.prof := Linux.disarmed;
     Linux.denied := false |}.

(** The same, with the filter installed. *)
Definition armed_denied (interval value : timeval) : kernel :=
  {| Linux.real := {| it_interval := interval; it_value := value |};
     Linux.virt := Linux.disarmed; Linux.prof := Linux.disarmed;
     Linux.denied := true |}.

(** [ITimer_Real timer(2.0);] *)
Definition constructed : World :=
  {| self := ITimer_ctor ITIMER_REAL (of_double 2); os := boot |}.

(** [timer.set_speed_factor(2.0);] *)
Definition doubled : World := snd (set_speed_factor 2 constructed).

(** [timer.start();] *)
Definition started : World := snd (start doubled).

(** [ITimer_Real a(2.0);] *)
Definition one_timer : process :=
  {| globals := {| ITimer_Real_instance_exists := true;
                   ITimer_Virtual_instance_exists := false;
                   ITimer_Prof_instance_exists := false |};
     kern := boot;
     objects := [ (Real, ITimer_ctor ITIMER_REAL (of_double 2)) ] |}.

(** [ITimer_Real a(2.0); ITimer_Virtual b(1.0);] *)
Definition two_timers : process :=
  {| globals := {| ITimer_Real_instance_exists := true;
                   ITimer_Virtual_instance_exists := true;
                   ITimer_Prof_instance_exists := false |};
     kern := boot;
     objects := [ (Virtual, ITimer_ctor ITIMER_VIRTUAL (of_double 1));
                  (Real, ITimer_ctor ITIMER_REAL (of_double 2)) ] |}.

End Example.

(** * Properties *)

Section Properties.

Context {host : Host}.

(** ** Running a member function *)

Lemma failed_rc_neg r : failed r -> (rc r <? 0) = true.
Proof. unfold failed. intros ->. reflexivity. Qed.

Lemma failed_rc_nonzero r : failed r -> negb (rc r =? 0) = true.
Proof. unfold failed. intros ->. reflexivity. Qed.

Lemma succeeded_rc_neg r : succeeded r -> (rc r <? 0) = false.
Proof. unfold succeeded. intros ->. reflexivity. Qed.

Lemma succeeded_rc_nonzero r : succeeded r -> negb (rc r =? 0) = false.
Proof. unfold succeeded. intros ->. reflexivity. Qed.

Local Ltac unfold_members :=
  unfold start, stop, set_speed_factor, set_speed_to_normal, adjust_speed,
    set_interval, set_interval_double, set_interval_value_double,
    set_interval_value, to_fstream, from_fstream, get_timer_value, is_running,
    bind, this, throw, ret, assign, call_setitimer, call_getitimer;
  repeat (cbv beta iota; cbn [self os negb];
          match goal with
          | H : running _ = _ |- _ => rewrite H
          end);
  cbv beta iota; cbn [self os negb it_interval it_value].

Local Ltac fields :=
  unfold set_timer_value, set_timer_interval, set_speed, set_running;
  cbn [timer_value timer_interval type speed_factor running];
  repeat match goal with
         | H : running _ = _ |- _ => rewrite H
         end;
  try reflexivity.

Local Ltac syscall r k' :=
  cbv beta iota; cbn [self os];
  match goal with
  | |- context [setitimer ?w ?v ?k] =>
      destruct (setitimer w v k) as [r k']; cbn [fst snd] in *
  | |- context [getitimer ?w ?k] =>
      destruct (getitimer w k) as [r k']; cbn [fst snd] in *
  end;
  cbv beta iota; cbn [self os].

Local Ltac rc_known :=
  match goal with
  | H : failed ?r |- _ =>
      is_var r;
      first [ rewrite (failed_rc_neg _ H) | rewrite (failed_rc_nonzero _ H) ];
      clear H
  | H : succeeded ?r |- _ =>
      is_var r;
      first [ rewrite (succeeded_rc_neg _ H) | rewrite (succeeded_rc_nonzero _ H) ];
      clear H
  end;
  cbv beta iota; cbn [self os].

(** ** stop *)

(** C4. On a running timer, a [stop()] whose [setitimer] succeeds stores the
    captured remaining value times [speed_factor] in [timer_value], clears
    [running] and keeps [timer_interval], [type] and [speed_factor]; on a
    stopped timer [stop()] throws "timer already stopped" and changes
    nothing; when [setitimer] fails it throws a [system_error] and the timer
    is still running with every field as before. Whatever [setitimer]
    returns: a [stop()] that throws leaves the timer object as it was, and a
    [stop()] that returns has changed [timer_value] and [running] alone. *)
Theorem stop_spec (t : ITimer) (k : kernel) :
  let w := {| self := t; os := k |} in
  let r := setitimer (type t) STOP_TIMER k in
  (running t = false ->
   stop w = (inl (runtime_error "timer already stopped"), w)) /\
  (running t = true -> failed (fst r) ->
   stop w = (inl (system_error (errno (fst r)) "call of setitimer failed"),
             {| self := t; os := snd r |})) /\
  (running t = true -> succeeded (fst r) ->
   stop w = (inr tt,
             {| self := {| timer_value :=
                             timeval_mul (it_value (out (fst r))) (speed_factor t);
                           timer_interval := timer_interval t;
                           type := type t;
                           speed_factor := speed_factor t;
                           running := false |};
                os := snd r |})) /\
  (forall e w', stop w = (inl e, w') -> self w' = t) /\
  (forall u w', stop w = (inr u, w') ->
   running t = true /\
   self w' = {| timer_value :=
                  timeval_mul (it_value (out (fst r))) (speed_factor t);
                timer_interval := timer_interval t;
                type := type t;
                speed_factor := speed_factor t;
                running := false |}).
Proof.
  intros w r. subst w r. split; [ | split; [ | split; [ | split ] ] ].
  - intros Hrun. unfold_members. reflexivity.
  - intros Hrun Hf. unfold_members. syscall r k'. rc_known. reflexivity.
  - intros Hrun Hs. unfold_members. syscall r k'. rc_known. fields.
  - intros e w'. unfold_members.
    destruct (running t); cbn [negb]; cbv beta iota;
      [ | intros [= _ <-]; reflexivity ].
    syscall r k'.
    destruct (rc r <? 0); [ intros [= _ <-]; reflexivity | discriminate ].
  - intros u w'. unfold_members.
    destruct (running t); cbn [negb]; cbv beta iota; [ | discriminate ].
    syscall r k'.
    destruct (rc r <? 0); [ discriminate | intros [= _ <-]; split; reflexivity ].
Qed.

(** ** set_interval_value *)

(** C9. On a running timer [set_interval_value] throws "cannot set
    interval/value if timer is running" and leaves the interval, the value,
    the speed factor and the running flag as they were; on a stopped timer
    it stores both arguments as given, whatever they are, the value
    greater than the interval included. The overload that takes seconds
    does the same with its arguments converted to [timeval]s. *)
Theorem set_interval_value_spec (t : ITimer) (k : kernel) (interval value : timeval) :
  let w := {| self := t; os := k |} in
  (running t = true ->
   set_interval_value interval value w =
     (inl (logic_error "cannot set interval/value if timer is running"), w)) /\
  (running t = false ->
   set_interval_value interval value w =
     (inr tt,
      {| self := {| timer_value := value;
                    timer_interval := interval;
                    type := type t;
                    speed_factor := speed_factor t;
                    running := false |};
         os := k |})) /\
  (forall seconds_interval seconds_value : float,
     (running t = true ->
      set_interval_value_double seconds_interval seconds_value w =
        (inl (logic_error "cannot set interval/value if timer is running"), w)) /\
     (running t = false ->
      set_interval_value_double seconds_interval seconds_value w =
        (inr tt,
         {| self := {| timer_value := double_to_timeval seconds_value;
                       timer_interval := double_to_timeval seconds_interval;
                       type := type t;
                       speed_factor := speed_factor t;
                       running := false |};
            os := k |}))).
Proof.
  intros w. subst w.
  split; [ | split; [ | intros si sv; split ] ];
    intros Hrun; unfold_members; fields.
Qed.

(** ** get_timer_value *)

(** C1, as the code has it. On a stopped timer [get_timer_value()] returns
    the stored [timer_value]; on a running timer it calls [getitimer] and
    returns the remaining value the kernel reports, as reported (the speed
    factor is not applied to it), or throws a [system_error] when
    [getitimer] fails. The timer object is the same afterwards in every
    case. *)
Theorem get_timer_value_spec (t : ITimer) (k : kernel) :
  let w := {| self := t; os := k |} in
  let r := getitimer (type t) k in
  (running t = false -> get_timer_value w = (inr (timer_value t), w)) /\
  (running t = true -> succeeded (fst r) ->
   get_timer_value w = (inr (it_value (out (fst r))), {| self := t; os := snd r |})) /\
  (running t = true -> failed (fst r) ->
   get_timer_value w =
     (inl (system_error (errno (fst r)) "call of getitimer failed"),
      {| self := t; os := snd r |})) /\
  self (snd (get_timer_value w)) = t.
Proof.
  intros w r. subst w r. repeat split; try intros Hrun.
  - unfold_members. reflexivity.
  - intros Hs. unfold_members. syscall r k'. rc_known. reflexivity.
  - intros Hf. unfold_members. syscall r k'. rc_known. reflexivity.
  - unfold_members. destruct (running t); cbv beta iota; cbn [self os snd].
    + syscall r k'. destruct (rc r <? 0); reflexivity.
    + reflexivity.
Qed.

(** ** start *)

(** C3. [start()] on a running timer throws "timer already started". On a
    stopped timer, with the interval and the value divided by the speed
    factor: it throws "timer interval is negative" when the scaled
    interval has negative seconds, else "timer value is negative" when the
    scaled value has negative seconds, else "invalid timer values ..." when
    the scaled interval is zero in both fields, else it calls [setitimer]
    and throws a [system_error] when that fails. Whenever it throws, the
    timer object is as before; when it returns, [running] is set and
    nothing else has changed. *)
Theorem start_spec (t : ITimer) (k : kernel) :
  let w := {| self := t; os := k |} in
  let interval := timeval_div (timer_interval t) (speed_factor t) in
  let value := timeval_div (timer_value t) (speed_factor t) in
  let r := setitimer (type t) {| it_interval := interval; it_value := value |} k in
  (running t = true ->
   start w = (inl (logic_error "timer already started"), w)) /\
  (running t = false -> tv_sec interval < 0 ->
   start w = (inl (runtime_error "timer interval is negative"), w)) /\
  (running t = false -> 0 <= tv_sec interval -> tv_sec value < 0 ->
   start w = (inl (runtime_error "timer value is negative"), w)) /\
  (running t = false -> 0 <= tv_sec value ->
   tv_sec interval = 0 -> tv_usec interval = 0 ->
   start w =
     (inl (runtime_error "invalid timer values due to to a to small speed factor"),
      w)) /\
  (running t = false -> 0 <= tv_sec interval -> 0 <= tv_sec value ->
   ~ (tv_sec interval = 0 /\ tv_usec interval = 0) -> failed (fst r) ->
   start w = (inl (system_error (errno (fst r)) "call of setitimer failed"),
              {| self := t; os := snd r |})) /\
  (running t = false -> 0 <= tv_sec interval -> 0 <= tv_sec value ->
   ~ (tv_sec interval = 0 /\ tv_usec interval = 0) -> succeeded (fst r) ->
   start w = (inr tt,
              {| self := {| timer_value := timer_value t;
                            timer_interval := timer_interval t;
                            type := type t;
                            speed_factor := speed_factor t;
                            running := true |};
                 os := snd r |})) /\
  (forall e w', start w = (inl e, w') -> self w' = t) /\
  (forall u w', start w = (inr u, w') ->
   running t = false /\ self w' = set_running true t).
Proof.
  intros w interval value r. subst w.
  assert (Hneg : forall z, z < 0 -> (z <? 0) = true)
    by (intros; apply Z.ltb_lt; assumption).
  assert (Hpos : forall z, 0 <= z -> (z <? 0) = false)
    by (intros; apply Z.ltb_ge; assumption).
  assert (Hnz : ~ (tv_sec interval = 0 /\ tv_usec interval = 0) ->
                (tv_sec interval =? 0) && (tv_usec interval =? 0) = false).
  { intros H. apply andb_false_iff.
    destruct (Z.eqb_spec (tv_sec interval) 0); [ | now left ].
    destruct (Z.eqb_spec (tv_usec interval) 0); [ | now right ].
    exfalso; auto. }
  split; [ | split; [ | split; [ | split; [ | split; [ | split; [ | split ] ] ] ] ] ].
  - intros Hrun. unfold_members. reflexivity.
  - intros Hrun Hi. unfold_members. fold interval. rewrite (Hneg _ Hi). reflexivity.
  - intros Hrun Hi Hv. unfold_members. fold interval value.
    rewrite (Hpos _ Hi), (Hneg _ Hv). reflexivity.
  - intros Hrun Hv Hs Hu. unfold_members. fold interval value.
    rewrite (Hpos _ Hv), Hs, Hu. reflexivity.
  - intros Hrun Hi Hv Hz Hf. unfold_members. fold interval value.
    rewrite (Hpos _ Hi), (Hpos _ Hv), (Hnz Hz). subst r interval value.
    syscall r' k'. rc_known. reflexivity.
  - intros Hrun Hi Hv Hz Hs. unfold_members. fold interval value.
    rewrite (Hpos _ Hi), (Hpos _ Hv), (Hnz Hz). subst r interval value.
    syscall r' k'. rc_known. fields.
  - intros e w'. unfold_members. fold interval value.
    destruct (running t); cbv beta iota; [ intros [= _ <-]; reflexivity | ].
    destruct (tv_sec interval <? 0); [ intros [= _ <-]; reflexivity | ].
    destruct (tv_sec value <? 0); [ intros [= _ <-]; reflexivity | ].
    destruct ((tv_sec interval =? 0) && (tv_usec interval =? 0));
      [ intros [= _ <-]; reflexivity | ].
    clear r. syscall r' k'.
    destruct (rc r' <? 0); [ intros [= _ <-]; reflexivity | discriminate ].
  - intros u w'. unfold_members. fold interval value.
    destruct (running t); cbv beta iota; [ discriminate | ].
    destruct (tv_sec interval <? 0); [ discriminate | ].
    destruct (tv_sec value <? 0); [ discriminate | ].
    destruct ((tv_sec interval =? 0) && (tv_usec interval =? 0));
      [ discriminate | ].
    clear r. syscall r' k'.
    destruct (rc r' <? 0); [ discriminate | intros [= _ <-]; split; reflexivity ].
Qed.

(** ** set_speed_factor *)

(** What the two checks of [set_speed_factor] answer on each kind of
    [double]. *)
Lemma speed_factor_checks (f : float) :
  match Prim2SF f with
  | S754_finite false _ _ =>
      (f <=? 0)%float = false /\ is_nan f = false /\ is_infinity f = false
  | S754_nan => (f <=? 0)%float = false /\ is_nan f = true
  | S754_infinity false =>
      (f <=? 0)%float = false /\ is_nan f = false /\ is_infinity f = true
  | _ => (f <=? 0)%float = true
  end.
Proof.
  unfold is_nan, is_infinity.
  rewrite leb_spec, !eqb_spec, abs_spec.
  change (Prim2SF 0) with (S754_zero false).
  change (Prim2SF infinity) with (S754_infinity false).
  destruct (Prim2SF f) as [ s | [ | ] | | [ | ] m e ]; cbn; auto.
  - rewrite Z.compare_refl. cbn. rewrite ?Pos.compare_refl.
    repeat split; reflexivity.
Qed.

Lemma finite_positive_checks (f : float) :
  finite_positive f = true ->
  (f <=? 0)%float = false /\ is_nan f = false /\ is_infinity f = false.
Proof.
  unfold finite_positive. pose proof (speed_factor_checks f) as H.
  destruct (Prim2SF f) as [ s | [ | ] | | [ | ] m e ]; try discriminate.
  intros _. exact H.
Qed.

(** Every [double] is of one of the kinds. *)
Lemma speed_factor_kinds (f : float) :
  finite_positive f =
  negb (class_zero f || class_negative f || class_nan f || class_infinite f).
Proof.
  unfold finite_positive, class_zero, class_negative, class_nan, class_infinite.
  destruct (Prim2SF f) as [ s | [ | ] | | [ | ] m e ]; reflexivity.
Qed.

(** C8. [set_speed_factor] with a zero, a negative number, a NaN or an
    infinity throws [invalid_argument], on a stopped and on a running timer
    alike, and the timer (its speed factor included) and the kernel are as
    before; with a finite number above zero on a stopped timer it stores
    the number in [speed_factor] and changes nothing else. A [double] is of
    the one kind or of the other. *)
Theorem set_speed_factor_validation (t : ITimer) (k : kernel) (f : float) :
  let w := {| self := t; os := k |} in
  (class_zero f || class_negative f || class_nan f || class_infinite f = true ->
   exists what, set_speed_factor f w = (inl (invalid_argument what), w)) /\
  (finite_positive f = true -> running t = false ->
   set_speed_factor f w =
     (inr tt,
      {| self := {| timer_value := timer_value t;
                    timer_interval := timer_interval t;
                    type := type t;
                    speed_factor := f;
                    running := false |};
         os := k |})) /\
  finite_positive f =
    negb (class_zero f || class_negative f || class_nan f || class_infinite f).
Proof.
  intros w. subst w. split; [ | split; [ | apply speed_factor_kinds ] ].
  - unfold class_zero, class_negative, class_nan, class_infinite.
    pose proof (speed_factor_checks f) as H. unfold set_speed_factor, throw.
    destruct (Prim2SF f) as [ s | [ | ] | | [ | ] m e ]; try discriminate;
      intros _.
    + rewrite H. eauto.
    + rewrite H. eauto.
    + destruct H as (-> & -> & ->). cbn [orb]. eauto.
    + destruct H as (-> & ->). cbn [orb]. eauto.
    + rewrite H. eauto.
  - intros Hf Hrun.
    destruct (finite_positive_checks f Hf) as (H1 & H2 & H3).
    unfold set_speed_factor. rewrite H1, H2, H3. cbn [orb].
    unfold_members. fields.
Qed.

(** C2. [set_speed_factor(f)] on a running timer, [f] finite and above
    zero: [setitimer] with [STOP_TIMER] stops the clock and hands back the
    remaining value; the clock is then set to the interval
    [timer_interval / f] and to that remaining value times
    [speed_factor / f]; [speed_factor] becomes [f] once this second call has
    succeeded. When either call fails a [system_error] with its [errno] is
    thrown and the timer, [speed_factor] included, is as before. Whatever
    the calls return: when [set_speed_factor] throws the timer object is as
    it was, and when it returns [speed_factor] is [f] and nothing else has
    changed. *)
Theorem set_speed_factor_running (t : ITimer) (k : kernel) (f : float) :
  let w := {| self := t; os := k |} in
  let r1 := setitimer (type t) STOP_TIMER k in
  let val :=
    {| it_interval := timeval_div (timer_interval t) f;
       it_value := timeval_mul (it_value (out (fst r1))) (speed_factor t / f)%float |} in
  let r2 := setitimer (type t) val (snd r1) in
  running t = true -> finite_positive f = true ->
  (failed (fst r1) ->
   set_speed_factor f w =
     (inl (system_error (errno (fst r1)) "call of setitimer failed"),
      {| self := t; os := snd r1 |})) /\
  (succeeded (fst r1) -> failed (fst r2) ->
   set_speed_factor f w =
     (inl (system_error (errno (fst r2)) "call of setitimer failed"),
      {| self := t; os := snd r2 |})) /\
  (succeeded (fst r1) -> succeeded (fst r2) ->
   set_speed_factor f w =
     (inr tt,
      {| self := {| timer_value := timer_value t;
                    timer_interval := timer_interval t;
                    type := type t;
                    speed_factor := f;
                    running := true |};
         os := snd r2 |})) /\
  (forall e w', set_speed_factor f w = (inl e, w') -> self w' = t) /\
  (forall u w', set_speed_factor f w = (inr u, w') -> self w' = set_speed f t).
Proof.
  intros w r1 val r2 Hrun Hf. subst w r2 val r1.
  destruct (finite_positive_checks f Hf) as (H1 & H2 & H3).
  unfold set_speed_factor. rewrite H1, H2, H3. cbn [orb].
  unfold timeval_mul. cbv zeta.
  split; [ | split; [ | split; [ | split ] ] ];
    [ | | | intros e w'; unfold_members; syscall r1 k1;
            (destruct (rc r1 =? 0); cbn [negb]; cbv beta iota;
             [ | intros [= _ <-]; reflexivity ]);
            syscall r2 k2;
            (destruct (rc r2 =? 0); cbn [negb]; cbv beta iota;
             [ discriminate | intros [= _ <-]; reflexivity ])
          | intros u w'; unfold_members; syscall r1 k1;
            (destruct (rc r1 =? 0); cbn [negb]; cbv beta iota;
             [ | discriminate ]);
            syscall r2 k2;
            (destruct (rc r2 =? 0); cbn [negb]; cbv beta iota;
             [ intros [= _ <-]; reflexivity | discriminate ]) ].
  - intros Hf1. unfold_members. syscall r1 k1. rc_known. reflexivity.
  - intros Hs1 Hf2. unfold_members. syscall r1 k1. rc_known.
    syscall r2 k2. rc_known. reflexivity.
  - intros Hs1 Hs2. unfold_members. syscall r1 k1. rc_known.
    syscall r2 k2. rc_known. fields.
Qed.

(** ** The snapshot record *)

Lemma firstn_app_exact {A} (l1 l2 : list A) n :
  length l1 = n -> firstn n (l1 ++ l2) = l1.
Proof.
  intros <-. rewrite firstn_app, Nat.sub_diag, firstn_all. cbn.
  apply app_nil_r.
Qed.

Lemma skipn_app_exact {A} (l1 l2 : list A) n :
  length l1 = n -> skipn n (l1 ++ l2) = l2.
Proof.
  intros <-. rewrite skipn_app, Nat.sub_diag, skipn_all. reflexivity.
Qed.

Lemma length_bytes_of_long z : length (bytes_of_long z) = 8%nat.
Proof. apply length_le_split. Qed.

Lemma length_bytes_of_timeval t : length (bytes_of_timeval t) = 16%nat.
Proof.
  unfold bytes_of_timeval. rewrite length_app, !length_bytes_of_long.
  reflexivity.
Qed.

Lemma length_bytes_of_itimerval v :
  length (bytes_of_itimerval v) = sizeof_itimerval.
Proof.
  unfold bytes_of_itimerval. rewrite length_app, !length_bytes_of_timeval.
  reflexivity.
Qed.

(** A [long] read back from its eight bytes is the [long] written. *)
Lemma long_of_bytes_of_long z rest :
  in_long z = true -> long_of_bytes (bytes_of_long z ++ rest) = z.
Proof.
  unfold in_long, LONG_MIN, LONG_MAX, long_of_bytes. intros H.
  apply andb_true_iff in H. destruct H as [Hlo Hhi].
  apply Z.leb_le in Hlo. apply Z.geb_le in Hhi.
  rewrite (firstn_app_exact _ _ 8 (length_bytes_of_long z)).
  unfold bytes_of_long. rewrite le_combine_split.
  change (Z.of_nat 8 * 8) with 64.
  destruct (Z.ltb_spec z 0) as [Hneg | Hpos].
  - replace (z mod 2 ^ 64) with (z + 2 ^ 64).
    + destruct (Z.ltb_spec (z + 2 ^ 64) (2 ^ 63)); lia.
    + apply Z.mod_unique with (q := -1); lia.
  - rewrite Z.mod_small by lia.
    destruct (Z.ltb_spec z (2 ^ 63)); lia.
Qed.

Lemma timeval_of_bytes_of_timeval t rest :
  timeval_in_long t -> timeval_of_bytes (bytes_of_timeval t ++ rest) = t.
Proof.
  intros [Hs Hu]. destruct t as [sec usec]. cbn [tv_sec tv_usec] in *.
  unfold timeval_of_bytes, bytes_of_timeval. cbn [tv_sec tv_usec].
  rewrite <- app_assoc.
  rewrite long_of_bytes_of_long by assumption.
  rewrite (skipn_app_exact _ _ 8 (length_bytes_of_long sec)).
  rewrite long_of_bytes_of_long by assumption.
  reflexivity.
Qed.

Lemma itimerval_of_bytes_of_itimerval v rest :
  timeval_in_long (it_interval v) -> timeval_in_long (it_value v) ->
  itimerval_of_bytes (bytes_of_itimerval v ++ rest) = v.
Proof.
  intros Hi Hv. destruct v as [i x]. cbn [it_interval it_value] in *.
  unfold itimerval_of_bytes, bytes_of_itimerval. cbn [it_interval it_value].
  rewrite <- app_assoc.
  rewrite timeval_of_bytes_of_timeval by assumption.
  rewrite (skipn_app_exact _ _ 16 (length_bytes_of_timeval i)).
  rewrite timeval_of_bytes_of_timeval by assumption.
  reflexivity.
Qed.

(** Reading [sizeof(itimerval)] bytes from a good stream that holds a
    record and more. *)
Lemma ifstream_read_record (rec rest buf : list byte) :
  length rec = sizeof_itimerval -> length buf = sizeof_itimerval ->
  ifstream_read {| i_fail := false; i_rest := rec ++ rest |} sizeof_itimerval buf =
    (rec, {| i_fail := false; i_rest := rest |}).
Proof.
  intros Hrec Hbuf. unfold ifstream_read. cbn [i_fail i_rest].
  rewrite (firstn_app_exact _ _ _ Hrec), (skipn_app_exact _ _ _ Hrec).
  rewrite Hrec, <- Hbuf, skipn_all, app_nil_r, Nat.ltb_irrefl.
  reflexivity.
Qed.

(** ** to_fstream, from_fstream *)

Lemma to_fstream_stopped (t : ITimer) (k : kernel) (fstream : ofstream) :
  o_fail fstream = false -> running t = false ->
  to_fstream fstream {| self := t; os := k |} =
    (inr {| o_fail := false;
            o_data := o_data fstream ++
                      bytes_of_itimerval {| it_interval := timer_interval t;
                                            it_value := timer_value t |} |},
     {| self := t; os := k |}).
Proof.
  intros Hgood Hrun. unfold_members. unfold ofstream_write. rewrite Hgood.
  reflexivity.
Qed.

(** C6, as the code has it. [to_fstream] on a stream that is not in a fail
    state appends one record of [sizeof(itimerval)] = 32 bytes, the bytes of
    an [itimerval] and nothing else. On a stopped timer the record holds
    [timer_interval] and [timer_value]. On a running timer it holds
    [timer_interval] again, the interval at speed 1 and not the one the
    clock runs with, and the remaining value [getitimer] reports multiplied
    by [speed_factor], the value at speed 1; when [getitimer] fails a
    [system_error] is thrown and nothing is written. The record of a stopped
    timer is the same whatever its [type] and [speed_factor] are. *)
Theorem to_fstream_spec (t : ITimer) (k : kernel) (fstream : ofstream) :
  let w := {| self := t; os := k |} in
  let r := getitimer (type t) k in
  o_fail fstream = false ->
  (running t = false ->
   to_fstream fstream w =
     (inr {| o_fail := false;
             o_data := o_data fstream ++
                       bytes_of_itimerval {| it_interval := timer_interval t;
                                             it_value := timer_value t |} |},
      w)) /\
  (running t = true -> succeeded (fst r) ->
   to_fstream fstream w =
     (inr {| o_fail := false;
             o_data := o_data fstream ++
                       bytes_of_itimerval
                         {| it_interval := timer_interval t;
                            it_value := timeval_mul (it_value (out (fst r)))
                                          (speed_factor t) |} |},
      {| self := t; os := snd r |})) /\
  (running t = true -> failed (fst r) ->
   to_fstream fstream w =
     (inl (system_error (errno (fst r)) "call of getitimer failed"),
      {| self := t; os := snd r |})) /\
  (forall v, length (bytes_of_itimerval v) = 32%nat) /\
  (forall v, timeval_in_long (it_interval v) -> timeval_in_long (it_value v) ->
   itimerval_of_bytes (bytes_of_itimerval v) = v) /\
  (forall which factor, running t = false ->
   fst (to_fstream fstream
          {| self := {| timer_value := timer_value t;
                        timer_interval := timer_interval t;
                        type := which;
                        speed_factor := factor;
                        running := false |};
             os := k |}) =
   fst (to_fstream fstream w)).
Proof.
  intros w r Hgood. subst w r.
  split; [ | split; [ | split; [ | split; [ | split ] ] ] ].
  - intros Hrun. apply to_fstream_stopped; assumption.
  - intros Hrun Hs. unfold_members. syscall r k'. rc_known.
    unfold ofstream_write. rewrite Hgood. reflexivity.
  - intros Hrun Hf. unfold_members. syscall r k'. rc_known. reflexivity.
  - apply length_bytes_of_itimerval.
  - intros v Hi Hv. rewrite <- (app_nil_r (bytes_of_itimerval v)).
    apply itimerval_of_bytes_of_itimerval; assumption.
  - intros which factor Hrun. unfold_members.
    cbn [running timer_interval timer_value]. cbv beta iota.
    reflexivity.
Qed.

(** C7. A stopped timer whose fields are [long]s writes its snapshot with
    [to_fstream]; a stopped timer that reads these bytes with [from_fstream]
    has the writer's [timer_interval] and [timer_value] afterwards and its
    own [speed_factor] and [type] as before the read, so a speed factor is
    not carried over. [from_fstream] on a running timer throws "timer is
    running" and changes nothing. *)
Theorem snapshot_roundtrip (t : ITimer) (k : kernel) (fstream : ofstream) :
  running t = false ->
  timeval_in_long (timer_interval t) -> timeval_in_long (timer_value t) ->
  o_fail fstream = false ->
  exists rec : list byte,
    to_fstream fstream {| self := t; os := k |} =
      (inr {| o_fail := false; o_data := o_data fstream ++ rec |},
       {| self := t; os := k |}) /\
    (forall (t' : ITimer) (k' : kernel) (rest : list byte),
        running t' = false ->
        from_fstream {| i_fail := false; i_rest := rec ++ rest |}
                     {| self := t'; os := k' |} =
          (inr {| i_fail := false; i_rest := rest |},
           {| self := {| timer_value := timer_value t;
                         timer_interval := timer_interval t;
                         type := type t';
                         speed_factor := speed_factor t';
                         running := false |};
              os := k' |})) /\
    (forall (t' : ITimer) (k' : kernel) (source : ifstream),
        running t' = true ->
        from_fstream source {| self := t'; os := k' |} =
          (inl (logic_error "timer is running"), {| self := t'; os := k' |})).
Proof.
  intros Hrun Hi Hv Hgood.
  exists (bytes_of_itimerval {| it_interval := timer_interval t;
                                it_value := timer_value t |}).
  split; [ | split ].
  - apply to_fstream_stopped; assumption.
  - intros t' k' rest Hrun'. clear Hrun. unfold_members.
    rewrite ifstream_read_record by apply length_bytes_of_itimerval.
    rewrite <- (app_nil_r (bytes_of_itimerval _)).
    rewrite itimerval_of_bytes_of_itimerval by assumption.
    cbv beta iota. cbn [self os it_interval it_value]. fields.
  - intros t' k' source Hrun'. clear Hrun. unfold_members. reflexivity.
Qed.

(** ** No validation before start *)

Lemma start_reaches_setitimer (t : ITimer) (k : kernel) :
  let interval := timeval_div (timer_interval t) (speed_factor t) in
  let value := timeval_div (timer_value t) (speed_factor t) in
  let r := setitimer (type t) {| it_interval := interval; it_value := value |} k in
  running t = false ->
  (tv_sec interval <? 0) = false -> (tv_sec value <? 0) = false ->
  (tv_sec interval =? 0) && (tv_usec interval =? 0) = false ->
  start {| self := t; os := k |} =
    (if rc (fst r) <? 0
     then inl (system_error (errno (fst r)) "call of setitimer failed")
     else inr tt,
     {| self := if rc (fst r) <? 0 then t else set_running true t;
        os := snd r |}).
Proof.
  intros interval value r Hrun Hi Hv Hz. unfold_members.
  fold interval value. rewrite Hi, Hv, Hz. subst r interval value.
  syscall r k'. destruct (rc r <? 0); reflexivity.
Qed.

(** C10. The constructors of [ITimer] and [set_interval_value] on a stopped
    timer store what they are given, whatever it is: they have no failing
    path, and a constructor of a timer type fails for no other reason than
    a live instance of that type. A negative or a zero interval is turned down by [start()] only:
    a timer built from [{-1, 0}] throws "timer interval is negative" there,
    one built from [{0, 0}] throws "invalid timer values ...". The two
    negativity checks of [start()] read [tv_sec] alone: when the scaled
    interval has zero seconds and negative microseconds (and the scaled
    value has no negative seconds), [start()] goes on to [setitimer] and
    ends as that call decides; the interval [{0, -500000}] at speed 1 is
    such a case. *)
Theorem no_validation_before_start :
  (forall which interval,
      ITimer_ctor which (of_timeval interval) =
        {| timer_value := interval; timer_interval := interval; type := which;
           speed_factor := 1; running := false |}) /\
  (forall which interval value,
      ITimer_ctor which (of_timevals interval value) =
        {| timer_value := value; timer_interval := interval; type := which;
           speed_factor := 1; running := false |}) /\
  (forall which interval,
      ITimer_ctor which (of_double interval) =
        {| timer_value := double_to_timeval interval;
           timer_interval := double_to_timeval interval; type := which;
           speed_factor := 1; running := false |}) /\
  (forall which interval value,
      ITimer_ctor which (of_doubles interval value) =
        {| timer_value := double_to_timeval value;
           timer_interval := double_to_timeval interval; type := which;
           speed_factor := 1; running := false |}) /\
  (forall t k interval value, running t = false ->
      set_interval_value interval value {| self := t; os := k |} =
        (inr tt,
         {| self := {| timer_value := value; timer_interval := interval;
                       type := type t; speed_factor := speed_factor t;
                       running := false |};
            os := k |})) /\
  (forall which k,
      let w := {| self := ITimer_ctor which (of_timeval (mk_timeval (-1) 0));
                  os := k |} in
      start w = (inl (runtime_error "timer interval is negative"), w)) /\
  (forall which k,
      let w := {| self := ITimer_ctor which (of_timeval (mk_timeval 0 0));
                  os := k |} in
      start w =
        (inl (runtime_error "invalid timer values due to to a to small speed factor"),
         w)) /\
  (forall t k,
      let interval := timeval_div (timer_interval t) (speed_factor t) in
      let value := timeval_div (timer_value t) (speed_factor t) in
      let r := setitimer (type t) {| it_interval := interval; it_value := value |} k in
      running t = false ->
      tv_sec interval = 0 -> tv_usec interval < 0 -> 0 <= tv_sec value ->
      (failed (fst r) ->
       start {| self := t; os := k |} =
         (inl (system_error (errno (fst r)) "call of setitimer failed"),
          {| self := t; os := snd r |})) /\
      (succeeded (fst r) ->
       start {| self := t; os := k |} =
         (inr tt, {| self := set_running true t; os := snd r |}))) /\
  (let interval := timeval_div (mk_timeval 0 (-500000)) 1 in
   tv_sec interval = 0 /\ tv_usec interval = -500000) /\
  (forall c a s,
      instance_exists c s = false ->
      fst (construct c a s) = inr (ITimer_ctor (which_of c) a)).
Proof.
  split; [ reflexivity | ]. split; [ reflexivity | ].
  split; [ reflexivity | ]. split; [ reflexivity | ].
  split; [ | split; [ | split; [ | split; [ | split ] ] ] ];
    [ | | | | | intros c a s Hfree;
              destruct c; cbn [instance_exists construct which_of] in *;
              unfold ITimer_Real_ctor, ITimer_Virtual_ctor, ITimer_Prof_ctor;
              rewrite Hfree; reflexivity ].
  - intros t k interval value Hrun. unfold_members. fields.
  - intros which k w. subst w. unfold_members.
    cbn [ITimer_ctor ITimer_of_timeval running timer_interval timer_value
         speed_factor type].
    cbv beta iota.
    replace (timeval_div (mk_timeval (-1) 0) 1) with (mk_timeval (-1) 0)
      by (vm_compute; reflexivity).
    reflexivity.
  - intros which k w. subst w. unfold_members.
    cbn [ITimer_ctor ITimer_of_timeval running timer_interval timer_value
         speed_factor type].
    cbv beta iota.
    replace (timeval_div (mk_timeval 0 0) 1) with (mk_timeval 0 0)
      by (vm_compute; reflexivity).
    reflexivity.
  - intros t k interval value r Hrun Hs Hu Hv.
    assert (E := start_reaches_setitimer t k Hrun).
    cbv zeta in E. fold interval value in E. fold r in E.
    rewrite Hs in E. specialize (E eq_refl).
    assert (Hv' : (tv_sec value <? 0) = false) by (apply Z.ltb_ge; assumption).
    assert (Hz : (0 =? 0) && (tv_usec interval =? 0) = false).
    { cbn [andb Z.eqb]. apply Z.eqb_neq. lia. }
    specialize (E Hv' Hz). rewrite E. split.
    + intros Hf. rewrite (failed_rc_neg _ Hf). reflexivity.
    + intros Hok. rewrite (succeeded_rc_neg _ Hok). reflexivity.
  - vm_compute. split; reflexivity.
Qed.

(** ** One timer per type *)

Lemma timer_class_eqb_eq a b : timer_class_eqb a b = true <-> a = b.
Proof. destruct a, b; cbn; split; congruence. Qed.

Lemma timer_class_eqb_refl a : timer_class_eqb a a = true.
Proof. destruct a; reflexivity. Qed.

(** What a constructor does to the flags. *)
Lemma construct_exists c a s :
  instance_exists c s = true ->
  construct c a s = (inl (logic_error "instance exists"), s).
Proof.
  destruct c; cbn [instance_exists construct];
    unfold ITimer_Real_ctor, ITimer_Virtual_ctor, ITimer_Prof_ctor;
    intros ->; reflexivity.
Qed.

Lemma construct_fresh c a s :
  instance_exists c s = false ->
  exists s',
    construct c a s = (inr (ITimer_ctor (which_of c) a), s') /\
    instance_exists c s' = true /\
    (forall c', c' <> c -> instance_exists c' s' = instance_exists c' s).
Proof.
  destruct c; cbn [instance_exists construct which_of];
    unfold ITimer_Real_ctor, ITimer_Virtual_ctor, ITimer_Prof_ctor;
    intros ->; eexists; (split; [ reflexivity | ]); (split; [ reflexivity | ]);
    intros [ | | ] Hne; try reflexivity; congruence.
Qed.

(** What a destructor does to the flags, however it ends. *)
Lemma destroy_flags c w s :
  instance_exists c (snd (destroy c w s)) = false /\
  (forall c', c' <> c ->
     instance_exists c' (snd (destroy c w s)) = instance_exists c' s).
Proof.
  destruct c; cbn [destroy];
    unfold ITimer_Real_dtor, ITimer_Virtual_dtor, ITimer_Prof_dtor;
    cbn [snd instance_exists]; (split; [ reflexivity | ]);
    intros [ | | ] Hne; try reflexivity; congruence.
Qed.

(** Counting the live timers of a class. *)
Lemma live_cons c o l :
  live c (o :: l) =
  ((if timer_class_eqb (fst o) c then 1 else 0) + live c l)%nat.
Proof.
  unfold live. cbn [filter]. destruct (timer_class_eqb (fst o) c); reflexivity.
Qed.

Lemma live_replace_nth c' i c t t' l :
  nth_error l i = Some (c, t) ->
  live c' (replace_nth i (c, t') l) = live c' l.
Proof.
  revert i. induction l as [ | o l IH ]; intros [ | i ]; cbn [nth_error replace_nth];
    try discriminate.
  - intros [= ->]. rewrite !live_cons. reflexivity.
  - intros H. rewrite !live_cons, (IH _ H). reflexivity.
Qed.

Lemma live_remove_nth c' i c t l :
  nth_error l i = Some (c, t) ->
  live c' l =
  ((if timer_class_eqb c c' then 1 else 0) + live c' (remove_nth i l))%nat.
Proof.
  revert i. induction l as [ | o l IH ]; intros [ | i ]; cbn [nth_error remove_nth];
    try discriminate.
  - intros [= ->]. rewrite live_cons. reflexivity.
  - intros H. rewrite !live_cons, (IH _ H). lia.
Qed.

(** The flags count the live timers. *)
Definition flags_count_live (p : process) : Prop :=
  forall c,
    live c (objects p) = if instance_exists c (globals p) then 1%nat else 0%nat.

Lemma flags_count_live_init k : flags_count_live (process_init k).
Proof. intros [ | | ]; reflexivity. Qed.

Lemma flags_count_live_step p p' :
  flags_count_live p -> step p p' -> flags_count_live p'.
Proof.
  intros Inv Hstep.
  destruct Hstep as [ c a p t s' Hc | c a p e s' Hc | A m p i c t r w' Hi Hm Hr
                    | p i c t k' s' Hi Hd ];
    intros c'; cbn [objects globals].
  - destruct (instance_exists c (globals p)) eqn:Hflag.
    + rewrite (construct_exists _ a _ Hflag) in Hc. discriminate.
    + destruct (construct_fresh c a _ Hflag) as (s'' & E & Hset & Hother).
      rewrite E in Hc. injection Hc as _ <-.
      rewrite live_cons, (Inv c'). cbn [fst].
      destruct (timer_class_eqb c c') eqn:Hcc.
      * apply timer_class_eqb_eq in Hcc. subst c'.
        rewrite Hset, Hflag. reflexivity.
      * rewrite Hother; [ reflexivity | ].
        intros ->. rewrite timer_class_eqb_refl in Hcc. discriminate.
  - destruct (instance_exists c (globals p)) eqn:Hflag.
    + rewrite (construct_exists _ a _ Hflag) in Hc. injection Hc as _ <-.
      apply Inv.
    + destruct (construct_fresh c a _ Hflag) as (s'' & E & _).
      rewrite E in Hc. discriminate.
  - rewrite (live_replace_nth _ _ _ _ _ _ Hi). apply Inv.
  - pose proof (destroy_flags c {| self := t; os := kern p |} (globals p))
      as [Hclear Hother].
    rewrite Hd in Hclear, Hother. cbn [snd] in Hclear, Hother.
    pose proof (live_remove_nth c' _ _ _ _ Hi) as Hlive.
    rewrite (Inv c') in Hlive.
    destruct (timer_class_eqb c c') eqn:Hcc.
    + apply timer_class_eqb_eq in Hcc. subst c'. rewrite Hclear.
      destruct (instance_exists c (globals p)); lia.
    + rewrite Hother.
      * cbn [Nat.add] in Hlive. symmetry. exact Hlive.
      * intros ->. rewrite timer_class_eqb_refl in Hcc. discriminate.
Qed.

Lemma flags_count_live_reachable p : reachable p -> flags_count_live p.
Proof.
  induction 1 as [ k | p p' _ IH Hstep ].
  - apply flags_count_live_init.
  - exact (flags_count_live_step _ _ IH Hstep).
Qed.

(** The class of a live timer and the clock its object names agree. *)
Definition types_agree (p : process) : Prop :=
  Forall (fun o => type (snd o) = which_of (fst o)) (objects p).

Lemma member_keeps_type {A} (m : M A) w :
  member m -> type (self (snd (m w))) = type (self w).
Proof.
  intros Hm. destruct w as [t k].
  destruct Hm; unfold_members; cbn [self];
    repeat match goal with
      | |- context [if ?b then _ else _] => destruct b; cbv beta iota
      | |- context [setitimer ?w ?v ?k] =>
          destruct (setitimer w v k); cbv beta iota; cbn [self os]
      | |- context [getitimer ?w ?k] =>
          destruct (getitimer w k); cbv beta iota; cbn [self os]
      | |- context [ifstream_read ?s ?n ?b] =>
          destruct (ifstream_read s n b); cbv beta iota; cbn [self os]
      end;
    reflexivity.
Qed.

Lemma ITimer_ctor_type which a : type (ITimer_ctor which a) = which.
Proof. destruct a; reflexivity. Qed.

Lemma Forall_replace_nth {A} (P : A -> Prop) i a l :
  Forall P l -> P a -> Forall P (replace_nth i a l).
Proof.
  intros Hl Ha. revert i.
  induction Hl as [ | x l Hx Hl IH ]; intros [ | i ]; cbn [replace_nth];
    constructor; auto.
Qed.

Lemma Forall_remove_nth {A} (P : A -> Prop) i l :
  Forall P l -> Forall P (remove_nth i l).
Proof.
  intros Hl. revert i.
  induction Hl as [ | x l Hx Hl IH ]; intros [ | i ]; cbn [remove_nth];
    try constructor; auto.
Qed.

Lemma types_agree_reachable p : reachable p -> types_agree p.
Proof.
  unfold types_agree.
  induction 1 as [ k | p p' _ IH Hstep ]; [ constructor | ].
  destruct Hstep as [ c a p t s' Hc | c a p e s' Hc | A m p i c t r w' Hi Hm Hr
                    | p i c t k' s' Hi Hd ]; cbn [objects] in *.
  - constructor; [ | exact IH ]. cbn [fst snd].
    destruct (instance_exists c (globals p)) eqn:Hflag.
    + rewrite (construct_exists _ a _ Hflag) in Hc. discriminate.
    + destruct (construct_fresh c a _ Hflag) as (s'' & E & _).
      rewrite E in Hc. injection Hc as <- _. apply ITimer_ctor_type.
  - exact IH.
  - apply Forall_replace_nth; [ exact IH | ]. cbn [fst snd].
    pose proof (member_keeps_type m {| self := t; os := kern p |} Hm) as Ht.
    rewrite Hr in Ht. cbn [snd self] in Ht. rewrite Ht.
    rewrite Forall_forall in IH.
    exact (IH _ (nth_error_In _ _ Hi)).
  - apply Forall_remove_nth. exact IH.
Qed.

(** C5. In every state a process can reach by constructing timers, calling
    their member functions and destroying them, each class has at most one
    live timer, its flag is set exactly when it has one, and a live timer
    names the clock of its class. A constructor of a class whose flag is
    set throws "instance exists" and leaves the flags alone; with the flag
    clear it builds the timer, sets that flag and no other, so a timer of
    another class can be built next to it. A destructor clears the flag of
    its class, whether it ends normally or in [exit], and a timer of the
    class can be constructed after it. *)
Theorem one_timer_per_type :
  (forall p, reachable p ->
     forall c,
       (live c (objects p) <= 1)%nat /\
       (instance_exists c (globals p) = true <-> live c (objects p) = 1%nat)) /\
  (forall p, reachable p ->
     forall i c t, nth_error (objects p) i = Some (c, t) -> type t = which_of c) /\
  (forall c a s,
     instance_exists c s = true ->
     construct c a s = (inl (logic_error "instance exists"), s)) /\
  (forall c a s,
     instance_exists c s = false ->
     exists s',
       construct c a s = (inr (ITimer_ctor (which_of c) a), s') /\
       instance_exists c s' = true /\
       (forall c', c' <> c -> instance_exists c' s' = instance_exists c' s)) /\
  (forall c c' a a' s t s',
     c' <> c -> instance_exists c' s = false ->
     construct c a s = (inr t, s') ->
     exists s'', construct c' a' s' = (inr (ITimer_ctor (which_of c') a'), s'')) /\
  (forall c w s,
     instance_exists c (snd (destroy c w s)) = false /\
     (forall c', c' <> c ->
        instance_exists c' (snd (destroy c w s)) = instance_exists c' s)) /\
  (forall c w s a,
     exists s',
       construct c a (snd (destroy c w s)) =
         (inr (ITimer_ctor (which_of c) a), s')).
Proof.
  split; [ | split; [ | split; [ | split; [ | split; [ | split ] ] ] ] ].
  - intros p Hp c. pose proof (flags_count_live_reachable p Hp c) as H.
    destruct (instance_exists c (globals p)); rewrite H; split;
      try lia; split; congruence.
  - intros p Hp i c t Hi. pose proof (types_agree_reachable p Hp) as H.
    unfold types_agree in H. rewrite Forall_forall in H.
    exact (H _ (nth_error_In _ _ Hi)).
  - exact construct_exists.
  - exact construct_fresh.
  - intros c c' a a' s t s' Hne Hfree Hc.
    destruct (instance_exists c s) eqn:Hflag.
    + rewrite (construct_exists _ a _ Hflag) in Hc. discriminate.
    + destruct (construct_fresh c a _ Hflag) as (s1 & E & _ & Hother).
      rewrite E in Hc. injection Hc as _ <-.
      destruct (construct_fresh c' a' s1) as (s'' & E' & _).
      * rewrite (Hother _ Hne). exact Hfree.
      * exists s''. exact E'.
  - exact destroy_flags.
  - intros c w s a.
    destruct (construct_fresh c a (snd (destroy c w s))) as (s' & E & _).
    + apply destroy_flags.
    + exists s'. exact E.
Qed.

(** * Further properties of the code *)

(** ** set_speed_to_normal, adjust_speed *)

Lemma one_passes_checks :
  (1 <=? 0)%float = false /\ is_nan 1 = false /\ is_infinity 1 = false.
Proof. vm_compute. repeat split. Qed.

Lemma set_speed_to_normal_eq (w : World) :
  set_speed_to_normal w = set_speed_factor 1 w.
Proof.
  destruct one_passes_checks as (H1 & H2 & H3).
  unfold set_speed_to_normal, set_speed_factor. rewrite H1, H2, H3.
  reflexivity.
Qed.

(** X1. [set_speed_to_normal()] is [set_speed_factor(1.0)]: on every timer,
    stopped or running, and every kernel the two calls end alike and leave
    the same state (lines 148-153 against 126-135). *)
Theorem set_speed_to_normal_is_factor_one (w : World) :
  set_speed_to_normal w = set_speed_factor 1 w.
Proof. exact (set_speed_to_normal_eq w). Qed.

(** The checks of [set_speed_factor] let finite numbers above zero through
    and nothing else. *)
Lemma checks_passed_finite_positive (f : float) :
  (f <=? 0)%float = false -> is_nan f || is_infinity f = false ->
  finite_positive f = true.
Proof.
  pose proof (speed_factor_checks f) as H. unfold finite_positive.
  destruct (Prim2SF f) as [ s | [ | ] | | [ | ] m e ]; intros H1 H2;
    try reflexivity.
  - congruence.
  - congruence.
  - destruct H as (_ & _ & H). rewrite H, orb_true_r in H2. discriminate.
  - destruct H as (_ & H). rewrite H in H2. discriminate.
  - congruence.
Qed.

(** X3. [adjust_speed] refuses a stopped timer with "timer not running",
    and no public call ever shows that error: whatever the factor, the
    timer and the kernel, [set_speed_factor] throws nothing but an
    [invalid_argument] (the world untouched) or, on a running timer, the
    [system_error] of a failed [setitimer] (the timer object untouched);
    [set_speed_to_normal] throws nothing but the latter. *)
Theorem speed_change_exceptions (f : float) (w : World) :
  (running (self w) = false ->
   adjust_speed f w = (inl (runtime_error "timer not running"), w)) /\
  (forall e w',
     set_speed_factor f w = (inl e, w') ->
     (exists what, e = invalid_argument what /\ w' = w) \/
     (exists code, e = system_error code "call of setitimer failed" /\
                   running (self w) = true /\ self w' = self w)) /\
  (forall e w',
     set_speed_to_normal w = (inl e, w') ->
     exists code, e = system_error code "call of setitimer failed" /\
                  running (self w) = true /\ self w' = self w).
Proof.
  assert (Hfactor : forall g e w',
            set_speed_factor g w = (inl e, w') ->
            (exists what, e = invalid_argument what /\ w' = w) \/
            (exists code, e = system_error code "call of setitimer failed" /\
                          running (self w) = true /\ self w' = self w)).
  { intros g e w'. destruct w as [t k]. cbn [self].
    destruct (running t) eqn:Hrun; unfold_members;
      (destruct (g <=? 0)%float;
       [ intros [= <- <-]; left; eexists; split; reflexivity | ]);
      (destruct (is_nan g || is_infinity g);
       [ intros [= <- <-]; left; eexists; split; reflexivity | ]);
      cbv beta iota; cbn [self os]; rewrite Hrun; cbv beta iota;
      cbn [self os]; rewrite ?Hrun; cbn [negb]; cbv beta iota;
      [ | discriminate ].
    syscall r1 k1.
    destruct (rc r1 =? 0); cbn [negb]; cbv beta iota;
      [ | intros [= <- <-]; right; eexists; repeat split; reflexivity ].
    syscall r2 k2.
    destruct (rc r2 =? 0); cbn [negb]; cbv beta iota;
      [ discriminate
      | intros [= <- <-]; right; eexists; repeat split; reflexivity ]. }
  split; [ | split ].
  - intros Hrun. destruct w as [t k]. cbn [self] in Hrun. unfold_members.
    reflexivity.
  - apply Hfactor.
  - intros e w' H. rewrite set_speed_to_normal_eq in H.
    destruct (Hfactor _ _ _ H) as [ (what & -> & ->) | Hsys ];
      [ exfalso | exact Hsys ].
    revert H. destruct one_passes_checks as (H1 & H2 & H3).
    unfold set_speed_factor. rewrite H1, H2, H3. cbn [orb].
    destruct w as [t k].
    destruct (running t) eqn:Hrun; unfold_members; [ | discriminate ].
    rewrite ?Hrun; cbn [negb]; cbv beta iota.
    syscall r1 k1.
    destruct (rc r1 =? 0); cbn [negb]; cbv beta iota; [ | discriminate ].
    syscall r2 k2.
    destruct (rc r2 =? 0); cbn [negb]; cbv beta iota; discriminate.
Qed.

(** ** The destructor *)

(** X2. [~ITimer] on a stopped timer makes no system call; on a running
    timer it stops the clock with [setitimer(type, STOP_TIMER)], and calls
    [exit(EX_SOFTWARE)] when that call fails. It ends in [exit] in no
    other case, and with no other status. *)
Theorem ITimer_dtor_spec (t : ITimer) (k : kernel) :
  let w := {| self := t; os := k |} in
  let r := setitimer (type t) STOP_TIMER k in
  (running t = false -> ITimer_dtor w = (destroyed, k)) /\
  (running t = true -> succeeded (fst r) -> ITimer_dtor w = (destroyed, snd r)) /\
  (running t = true -> failed (fst r) ->
   ITimer_dtor w = (exited EX_SOFTWARE, snd r)) /\
  (forall status k',
     ITimer_dtor w = (exited status, k') ->
     status = EX_SOFTWARE /\ running t = true /\ rc (fst r) < 0 /\ k' = snd r).
Proof.
  intros w r. subst w r. unfold ITimer_dtor. cbn [self os].
  split; [ | split; [ | split ] ].
  - intros ->. reflexivity.
  - intros Hrun Hs. rewrite Hrun. unfold_members. syscall r k'. rc_known.
    reflexivity.
  - intros Hrun Hf. rewrite Hrun. unfold_members. syscall r k'. rc_known.
    reflexivity.
  - intros status k'. destruct (running t) eqn:Hrun; [ | discriminate ].
    unfold_members. syscall r k1.
    destruct (Z.ltb_spec (rc r) 0) as [Hneg | Hpos]; cbv beta iota; cbn [os].
    + intros [= <- <-]. repeat split; assumption.
    + discriminate.
Qed.

(** ** What the member functions keep *)

Local Ltac branches :=
  repeat match goal with
    | |- context [if ?b then _ else _] =>
        let E := fresh "E" in destruct b eqn:E; cbv beta iota; cbn [self os]
    | |- context [setitimer ?w ?v ?k] =>
        destruct (setitimer w v k); cbv beta iota; cbn [self os]
    | |- context [getitimer ?w ?k] =>
        destruct (getitimer w k); cbv beta iota; cbn [self os]
    | |- context [ifstream_read ?s ?n ?b] =>
        destruct (ifstream_read s n b); cbv beta iota; cbn [self os]
    end;
  cbn [snd self];
  unfold set_timer_value, set_timer_interval, set_speed, set_running;
  cbn [timer_value timer_interval type speed_factor running].

Lemma member_keeps_speed_valid {A} (m : M A) w :
  member m ->
  finite_positive (speed_factor (self w)) = true ->
  finite_positive (speed_factor (self (snd (m w)))) = true.
Proof.
  intros Hm Hv. destruct w as [t k]. cbn [self] in Hv.
  destruct Hm; unfold_members; branches;
    first [ exact Hv
          | reflexivity
          | apply checks_passed_finite_positive; assumption ].
Qed.

(** X4. The speed factor of a timer is a finite number above zero at all
    times: it is 1 after construction, and in every state a process can
    reach by constructing timers, calling their member functions and
    destroying them, each live timer has such a factor. The divisions of
    [start()] and [adjust_speed] thus never divide by zero, a negative
    number, a NaN or an infinity. *)
Theorem speed_factor_stays_valid (p : process) :
  reachable p ->
  forall i c t,
    nth_error (objects p) i = Some (c, t) ->
    finite_positive (speed_factor t) = true.
Proof.
  intros Hp.
  enough (H : Forall (fun o => finite_positive (speed_factor (snd o)) = true)
                     (objects p)).
  { intros i c t Hi. rewrite Forall_forall in H.
    exact (H _ (nth_error_In _ _ Hi)). }
  induction Hp as [ k | p p' _ IH Hstep ]; [ constructor | ].
  destruct Hstep as [ c a p t s' Hc | c a p e s' Hc | A m p i c t r w' Hi Hm Hr
                    | p i c t k' s' Hi Hd ]; cbn [objects] in *.
  - constructor; [ | exact IH ]. cbn [snd].
    destruct (instance_exists c (globals p)) eqn:Hflag.
    + rewrite (construct_exists _ a _ Hflag) in Hc. discriminate.
    + destruct (construct_fresh c a _ Hflag) as (s'' & E & _).
      rewrite E in Hc. injection Hc as <- _. destruct a; reflexivity.
  - exact IH.
  - apply Forall_replace_nth; [ exact IH | ]. cbn [snd].
    pose proof (member_keeps_speed_valid m {| self := t; os := kern p |} Hm) as Hv.
    rewrite Hr in Hv. cbn [snd self] in Hv. apply Hv.
    rewrite Forall_forall in IH.
    exact (IH _ (nth_error_In _ _ Hi)).
  - apply Forall_remove_nth. exact IH.
Qed.

(** X5. No member function changes the clock a timer was constructed for
    ([type]), whether it returns or throws; [to_fstream], [get_timer_value]
    and [is_running], the [const] members, leave the whole timer object as
    it was. *)
Theorem clock_type_never_changes :
  (forall {A} (m : M A) (w : World),
      member m -> type (self (snd (m w))) = type (self w)) /\
  (forall (fstream : ofstream) (w : World),
      self (snd (to_fstream fstream w)) = self w) /\
  (forall w : World, self (snd (get_timer_value w)) = self w) /\
  (forall w : World, self (snd (is_running w)) = self w).
Proof.
  split; [ | split; [ | split ] ].
  - intros A m w Hm. apply member_keeps_type. exact Hm.
  - intros fstream [t k]. unfold_members. branches; reflexivity.
  - intros [t k]. unfold_members. branches; reflexivity.
  - intros [t k]. unfold_members. reflexivity.
Qed.

(** X6. While a timer is running no member function changes its interval
    or, short of [stop()], its stored value: after any call on a running
    timer [timer_interval] is as before, and so is [timer_value] when the
    timer is still running. *)
Theorem running_protects_interval_value {A} (m : M A) (w : World) :
  member m -> running (self w) = true ->
  timer_interval (self (snd (m w))) = timer_interval (self w) /\
  (running (self (snd (m w))) = true ->
   timer_value (self (snd (m w))) = timer_value (self w)).
Proof.
  intros Hm Hrun. destruct w as [t k]. cbn [self] in Hrun.
  destruct Hm; unfold_members; branches;
    (split; [ reflexivity | ]); first [ reflexivity | discriminate ].
Qed.

(** ** Snapshots: unreadable streams, reading then writing, running timers *)




(** Eight bytes written from the [long] they decode to are those bytes. *)
Lemma bytes_of_long_of_bytes (bs : list byte) :
  (8 <= length bs)%nat -> bytes_of_long (long_of_bytes bs) = firstn 8 bs.
Proof.
  intros Hlen. unfold bytes_of_long, long_of_bytes.
  assert (H8 : length (firstn 8 bs) = 8%nat) by (rewrite length_firstn; lia).
  set (u := le_combine (firstn 8 bs)).
  assert (Hsplit : le_split 8 u = firstn 8 bs).
  { subst u. rewrite <- H8 at 1. apply split_le_combine. }
  destruct (u <? 2 ^ 63); [ exact Hsplit | ].
  rewrite le_split_mod. change (Z.of_nat 8 * 8) with 64.
  replace ((u - 2 ^ 64) mod 2 ^ 64) with (u mod 2 ^ 64).
  - change 64 with (Z.of_nat 8 * 8). rewrite <- le_split_mod. exact Hsplit.
  - rewrite <- (Z.mod_add u (-1) (2 ^ 64)) by lia. f_equal; lia.
Qed.

Lemma bytes_of_timeval_of_bytes (bs : list byte) :
  (16 <= length bs)%nat -> bytes_of_timeval (timeval_of_bytes bs) = firstn 16 bs.
Proof.
  intros Hlen. unfold bytes_of_timeval, timeval_of_bytes. cbn [tv_sec tv_usec].
  rewrite !bytes_of_long_of_bytes by (rewrite ?length_skipn; lia).
  rewrite <- (firstn_skipn 8 (firstn 16 bs)).
  rewrite firstn_firstn, skipn_firstn_comm. reflexivity.
Qed.

Lemma bytes_of_itimerval_of_bytes (bs : list byte) :
  length bs = sizeof_itimerval ->
  bytes_of_itimerval (itimerval_of_bytes bs) = bs.
Proof.
  unfold sizeof_itimerval. intros Hlen.
  unfold bytes_of_itimerval, itimerval_of_bytes. cbn [it_interval it_value].
  rewrite !bytes_of_timeval_of_bytes by (rewrite ?length_skipn; lia).
  rewrite (firstn_all2 (n := 16) (skipn 16 bs)) by (rewrite length_skipn; lia).
  apply firstn_skipn.
Qed.

(** X11. Reading a record and writing it again gives the same bytes: a
    stopped timer that reads any 32 bytes with [from_fstream] and then
    writes its snapshot with [to_fstream] appends exactly these 32 bytes,
    whatever they are (no field is checked or normalised on the way). *)
Theorem snapshot_read_then_write
    (t : ITimer) (k : kernel) (rec rest : list byte) (sink : ofstream) :
  running t = false -> length rec = 32%nat -> o_fail sink = false ->
  exists t',
    from_fstream {| i_fail := false; i_rest := rec ++ rest |}
                 {| self := t; os := k |} =
      (inr {| i_fail := false; i_rest := rest |}, {| self := t'; os := k |}) /\
    to_fstream sink {| self := t'; os := k |} =
      (inr {| o_fail := false; o_data := o_data sink ++ rec |},
       {| self := t'; os := k |}).
Proof.
  intros Hrun Hlen Hgood.
  eexists. split.
  - unfold_members.
    rewrite ifstream_read_record
      by (exact Hlen || apply length_bytes_of_itimerval).
    cbv beta iota. cbn [self os]. fields.
  - rewrite to_fstream_stopped by (exact Hgood || reflexivity).
    cbn [timer_interval timer_value].
    replace {| it_interval := it_interval (itimerval_of_bytes rec);
               it_value := it_value (itimerval_of_bytes rec) |}
      with (itimerval_of_bytes rec) by (destruct (itimerval_of_bytes rec); reflexivity).
    rewrite bytes_of_itimerval_of_bytes by exact Hlen.
    reflexivity.
Qed.

(** X8. The snapshot of a running timer is the snapshot it would write
    after [stop()]: when [getitimer] and the [setitimer] of [stop()] report
    the same remaining value, [to_fstream] on the running timer and
    [to_fstream] after [stop()] write the same stream. *)
Theorem running_snapshot_matches_stop
    (t : ITimer) (k : kernel) (fstream : ofstream) :
  let w := {| self := t; os := k |} in
  running t = true ->
  succeeded (fst (getitimer (type t) k)) ->
  succeeded (fst (setitimer (type t) STOP_TIMER k)) ->
  it_value (out (fst (getitimer (type t) k))) =
    it_value (out (fst (setitimer (type t) STOP_TIMER k))) ->
  fst (stop w) = inr tt /\
  fst (to_fstream fstream w) = fst (to_fstream fstream (snd (stop w))).
Proof.
  intros w Hrun Hg Hs Hsame. subst w.
  unfold stop at 1. unfold stop at 1. unfold to_fstream at 1.
  unfold bind, this, throw, ret, assign, call_setitimer, call_getitimer.
  cbv beta iota. cbn [self os]. rewrite Hrun. cbn [negb]. cbv beta iota.
  cbn [self os].
  destruct (setitimer (type t) STOP_TIMER k) as [rs ks].
  destruct (getitimer (type t) k) as [rg kg].
  cbn [fst snd] in *. cbv beta iota. cbn [self os].
  rewrite (succeeded_rc_neg _ Hg), (succeeded_rc_neg _ Hs).
  cbv beta iota. cbn [self os fst snd it_interval it_value].
  split; [ reflexivity | ].
  unfold to_fstream, bind, this, ret. cbv beta iota.
  cbn [self os fst snd]. fields.
  cbn [it_interval it_value]. rewrite Hsame. reflexivity.
Qed.

(** ** Duration arithmetic: seconds that are no number, and scaling by 1 *)

(** X10. Seconds that are a NaN or an infinity are converted without any
    check: [double_to_timeval] gives both fields by the conversion the
    language leaves undefined ([tv_sec] from the seconds themselves,
    [tv_usec] from the NaN that [fmod] answers), and the constructors and
    [set_interval_value] that take seconds store that [timeval]. *)
Theorem non_finite_seconds (x : float) :
  class_nan x || class_infinite x = true ->
  let stored := {| tv_sec := long_of_double_overflow x;
                   tv_usec := long_of_double_overflow nan |} in
  double_to_timeval x = stored /\
  (forall which,
      ITimer_ctor which (of_double x) =
        {| timer_value := stored; timer_interval := stored; type := which;
           speed_factor := 1; running := false |}) /\
  (forall t k, running t = false ->
      set_interval_value_double x x {| self := t; os := k |} =
        (inr tt,
         {| self := {| timer_value := stored; timer_interval := stored;
                       type := type t; speed_factor := speed_factor t;
                       running := false |};
            os := k |})).
Proof.
  intros Hx stored.
  assert (Hconv : double_to_timeval x = stored).
  { subst stored. unfold class_nan, class_infinite in Hx.
    unfold double_to_timeval, long_of_double at 1, trunc_double at 1.
    assert (Hmod : fmod x 1 = nan).
    { unfold fmod.
      change (Prim2SF 1) with (S754_finite false 4503599627370496 (-52)).
      destruct (Prim2SF x) as [ s | s | | s m e ]; try discriminate;
        reflexivity. }
    rewrite Hmod.
    replace (nan * USEC_PER_SEC)%float with nan by (vm_compute; reflexivity).
    replace (long_of_double nan) with (long_of_double_overflow nan)
      by (vm_compute; reflexivity).
    destruct (Prim2SF x) as [ s | s | | s m e ]; try discriminate;
      reflexivity. }
  split; [ exact Hconv | split ].
  - intros which. cbn [ITimer_ctor]. unfold ITimer_of_double.
    rewrite Hconv. reflexivity.
  - intros t k Hrun. unfold_members. rewrite Hconv. fields.
Qed.

Lemma all_from_correct (p : Z -> bool) (n : nat) :
  forall lo, all_from p lo n = true ->
  forall z, lo <= z < lo + Z.of_nat n -> p z = true.
Proof.
  induction n as [ | n IH ]; intros lo H z Hz; [ lia | ].
  cbn [all_from] in H. destruct (p lo) eqn:E; [ | discriminate ].
  destruct (Z.eq_dec z lo) as [-> | Hne]; [ exact E | ].
  apply (IH (lo + 1) H). lia.
Qed.

Lemma loses_at_most_one_correct (scale : timeval -> timeval) (usec : Z) :
  loses_at_most_one scale usec = true ->
  scale {| tv_sec := 0; tv_usec := usec |} = {| tv_sec := 0; tv_usec := usec |} \/
  scale {| tv_sec := 0; tv_usec := usec |} = {| tv_sec := 0; tv_usec := usec - 1 |}.
Proof.
  unfold loses_at_most_one.
  destruct (scale {| tv_sec := 0; tv_usec := usec |}) as [s u].
  cbn [tv_sec tv_usec]. intros H.
  apply andb_true_iff in H. destruct H as [Hs Hu].
  apply Z.eqb_eq in Hs. apply orb_true_iff in Hu.
  destruct Hu as [Hu | Hu]; apply Z.eqb_eq in Hu; subst; auto.
Qed.

Lemma div_by_one_checked :
  all_from (loses_at_most_one (fun t => timeval_div t 1)) 0 (Z.to_nat 1000) = true.
Proof. vm_compute. reflexivity. Qed.

Lemma mul_by_one_checked :
  all_from (loses_at_most_one (fun t => timeval_mul t 1)) 0 (Z.to_nat 1000) = true.
Proof. vm_compute. reflexivity. Qed.

(** X9. Scaling by the speed factor 1.0 is not the identity. For every
    duration below a millisecond, [{0, usec}] with [0 <= usec < 1000],
    dividing by 1.0 (as [start()] does at normal speed) and multiplying by
    1.0 (as [stop()] does) give either the duration back or one
    microsecond less, never more; 249 microseconds come back as 248. *)
Theorem subsecond_scaling_by_one (usec : Z) :
  0 <= usec < 1000 ->
  let t := {| tv_sec := 0; tv_usec := usec |} in
  let shorter := {| tv_sec := 0; tv_usec := usec - 1 |} in
  (timeval_div t 1 = t \/ timeval_div t 1 = shorter) /\
  (timeval_mul t 1 = t \/ timeval_mul t 1 = shorter) /\
  timeval_div {| tv_sec := 0; tv_usec := 249 |} 1 = {| tv_sec := 0; tv_usec := 248 |} /\
  timeval_mul {| tv_sec := 0; tv_usec := 249 |} 1 = {| tv_sec := 0; tv_usec := 248 |}.
Proof.
  intros Hu t shorter. subst t shorter.
  assert (Hrange : 0 <= usec < 0 + Z.of_nat (Z.to_nat 1000)).
  { rewrite Z2Nat.id by lia. lia. }
  split; [ | split; [ | split ] ].
  - apply (loses_at_most_one_correct (fun t => timeval_div t 1)).
    exact (all_from_correct _ _ 0 div_by_one_checked usec Hrange).
  - apply (loses_at_most_one_correct (fun t => timeval_mul t 1)).
    exact (all_from_correct _ _ 0 mul_by_one_checked usec Hrange).
  - vm_compute. reflexivity.
  - vm_compute. reflexivity.
Qed.

End Properties.

(** * The theorems on the Linux host *)

Section OnLinux.

#[local] Existing Instance Linux.host.

Import Example.

(** What the run of [Example] arrives at: a two-second timer at double
    speed, running, the clock set to one second. *)
Lemma started_is :
  started = {| self := timer (sec 2) (sec 2) 2 true; os := armed (sec 1) (sec 1) |}.
Proof. vm_compute. reflexivity. Qed.

(** Instantiating a theorem: every hypothesis is evaluated, then the
    conclusion is. *)
Local Ltac evaluated :=
  vm_compute;
  first [ reflexivity
        | let H := fresh in intro H; discriminate H
        | let H := fresh in intros [H _]; discriminate H
        | let H := fresh in intros [_ H]; discriminate H ].

Local Ltac discharge X :=
  cbv zeta in X;
  repeat match type of X with
         | ?P -> _ =>
             let h := fresh "h" in
             assert (h : P) by evaluated; specialize (X h); clear h
         end.

Local Ltac conclude X := vm_compute in X; vm_compute; exact X.

Local Ltac instance_of T :=
  let X := fresh "X" in
  pose proof T as X; discharge X; conclude X.

(** [stop_spec] on a stopped timer, with the filter installed, and half a
    second before the next expiry. *)
Lemma stop_spec_witness :
  stop {| self := timer (sec 2) (sec 2) 2 false; os := boot |} =
    (inl (runtime_error "timer already stopped"),
     {| self := timer (sec 2) (sec 2) 2 false; os := boot |}) /\
  stop {| self := timer (sec 2) (sec 2) 2 true; os := armed_denied (sec 1) half_sec |} =
    (inl (system_error Linux.EPERM "call of setitimer failed"),
     {| self := timer (sec 2) (sec 2) 2 true; os := armed_denied (sec 1) half_sec |}) /\
  stop {| self := timer (sec 2) (sec 2) 2 true; os := armed (sec 1) half_sec |} =
    (inr tt, {| self := timer (sec 1) (sec 2) 2 false; os := boot |}).
Proof.
  split; [ | split ].
  - instance_of (proj1 (stop_spec (timer (sec 2) (sec 2) 2 false) boot)).
  - instance_of (proj1 (proj2 (stop_spec (timer (sec 2) (sec 2) 2 true)
                                 (armed_denied (sec 1) half_sec)))).
  - instance_of (proj1 (proj2 (proj2 (stop_spec (timer (sec 2) (sec 2) 2 true)
                                        (armed (sec 1) half_sec))))).
Defined.

(** [set_interval_value_spec] on the running timer and on a stopped one,
    the new value above the new interval. *)
Lemma set_interval_value_spec_witness :
  set_interval_value (sec 1) (sec 5) started =
    (inl (logic_error "cannot set interval/value if timer is running"), started) /\
  set_interval_value (sec 1) (sec 5)
      {| self := timer (sec 2) (sec 2) 2 false; os := boot |} =
    (inr tt, {| self := timer (sec 5) (sec 1) 2 false; os := boot |}).
Proof.
  split.
  - instance_of (proj1 (set_interval_value_spec
                          (timer (sec 2) (sec 2) 2 true) (armed (sec 1) (sec 1))
                          (sec 1) (sec 5))).
  - instance_of (proj1 (proj2 (set_interval_value_spec
                                 (timer (sec 2) (sec 2) 2 false) boot
                                 (sec 1) (sec 5)))).
Defined.

(** [get_timer_value_spec] on a stopped timer, half a second before the
    next expiry of a running one, and with the filter installed. *)
Lemma get_timer_value_spec_witness :
  get_timer_value {| self := timer (sec 2) (sec 2) 2 false; os := boot |} =
    (inr (sec 2), {| self := timer (sec 2) (sec 2) 2 false; os := boot |}) /\
  get_timer_value {| self := timer (sec 2) (sec 2) 2 true; os := armed (sec 1) half_sec |} =
    (inr half_sec,
     {| self := timer (sec 2) (sec 2) 2 true; os := armed (sec 1) half_sec |}) /\
  get_timer_value {| self := timer (sec 2) (sec 2) 2 true;
                     os := armed_denied (sec 1) half_sec |} =
    (inl (system_error Linux.EPERM "call of getitimer failed"),
     {| self := timer (sec 2) (sec 2) 2 true; os := armed_denied (sec 1) half_sec |}).
Proof.
  split; [ | split ].
  - instance_of (proj1 (get_timer_value_spec (timer (sec 2) (sec 2) 2 false) boot)).
  - instance_of (proj1 (proj2 (get_timer_value_spec (timer (sec 2) (sec 2) 2 true)
                                 (armed (sec 1) half_sec)))).
  - instance_of (proj1 (proj2 (proj2 (get_timer_value_spec
                                        (timer (sec 2) (sec 2) 2 true)
                                        (armed_denied (sec 1) half_sec))))).
Defined.

(** C1 as the specification words it fails on the running timer of
    [Example]: the timer runs at speed 2, the clock holds one second, and
    [get_timer_value()] answers that one second, neither multiplied nor
    divided by the speed factor; at speed 1 it is two seconds
    ([{1,0} * 2.0]), which is also what [stop()] would store. *)
Lemma get_timer_value_running_not_normalized :
  running (self started) = true /\
  speed_factor (self started) = 2%float /\
  it_value (out (fst (getitimer (type (self started)) (os started)))) = sec 1 /\
  fst (get_timer_value started) = inr (sec 1) /\
  timeval_mul (sec 1) (speed_factor (self started)) = sec 2 /\
  timeval_div (sec 1) (speed_factor (self started)) = half_sec /\
  fst (get_timer_value started) <>
    inr (timeval_mul
           (it_value (out (fst (getitimer (type (self started)) (os started)))))
           (speed_factor (self started))).
Proof. vm_compute. repeat split; discriminate. Qed.

(** [start_spec], one timer for each way [start()] can end. *)
Lemma start_spec_witness :
  start started = (inl (logic_error "timer already started"), started) /\
  start {| self := timer (sec 1) (sec (-1)) 1 false; os := boot |} =
    (inl (runtime_error "timer interval is negative"),
     {| self := timer (sec 1) (sec (-1)) 1 false; os := boot |}) /\
  start {| self := timer (sec (-1)) (sec 1) 1 false; os := boot |} =
    (inl (runtime_error "timer value is negative"),
     {| self := timer (sec (-1)) (sec 1) 1 false; os := boot |}) /\
  start {| self := timer (sec 1) (mk_timeval 0 1) 4 false; os := boot |} =
    (inl (runtime_error "invalid timer values due to to a to small speed factor"),
     {| self := timer (sec 1) (mk_timeval 0 1) 4 false; os := boot |}) /\
  start {| self := timer (sec 1) (mk_timeval 0 (-500000)) 1 false; os := boot |} =
    (inl (system_error Linux.EINVAL "call of setitimer failed"),
     {| self := timer (sec 1) (mk_timeval 0 (-500000)) 1 false; os := boot |}) /\
  start doubled = (inr tt, started) /\
  self (snd (start {| self := timer (sec 1) (sec (-1)) 1 false; os := boot |})) =
    timer (sec 1) (sec (-1)) 1 false /\
  self (snd (start doubled)) = timer (sec 2) (sec 2) 2 true.
Proof.
  split; [ | split; [ | split; [ | split; [ | split; [ | split; [ | split ] ] ] ] ] ].
  - instance_of (proj1 (start_spec (timer (sec 2) (sec 2) 2 true)
                          (armed (sec 1) (sec 1)))).
  - instance_of (proj1 (proj2 (start_spec (timer (sec 1) (sec (-1)) 1 false) boot))).
  - instance_of (proj1 (proj2 (proj2
                   (start_spec (timer (sec (-1)) (sec 1) 1 false) boot)))).
  - instance_of (proj1 (proj2 (proj2 (proj2
                   (start_spec (timer (sec 1) (mk_timeval 0 1) 4 false) boot))))).
  - instance_of (proj1 (proj2 (proj2 (proj2 (proj2
                   (start_spec (timer (sec 1) (mk_timeval 0 (-500000)) 1 false)
                      boot)))))).
  - instance_of (proj1 (proj2 (proj2 (proj2 (proj2 (proj2
                   (start_spec (timer (sec 2) (sec 2) 2 false) boot))))))).
  - pose proof (proj1 (proj2 (proj2 (proj2 (proj2 (proj2 (proj2
                   (start_spec (timer (sec 1) (sec (-1)) 1 false) boot)))))))
                (runtime_error "timer interval is negative")
                {| self := timer (sec 1) (sec (-1)) 1 false; os := boot |}) as X.
    discharge X. conclude X.
  - pose proof (proj2 (proj2 (proj2 (proj2 (proj2 (proj2 (proj2
                   (start_spec (timer (sec 2) (sec 2) 2 false) boot)))))))
                tt started) as X.
    discharge X. destruct X as [_ X]. conclude X.
Defined.

(** [set_speed_factor_validation] on a zero, a negative number, a NaN and
    an infinity, on the running timer and on a stopped one, and on 0.75 on
    a stopped timer. *)
Lemma set_speed_factor_validation_witness :
  (exists what, set_speed_factor 0 started = (inl (invalid_argument what), started)) /\
  (exists what, set_speed_factor (-1) started = (inl (invalid_argument what), started)) /\
  (exists what, set_speed_factor nan started = (inl (invalid_argument what), started)) /\
  (exists what,
      set_speed_factor infinity {| self := timer (sec 2) (sec 2) 1 false; os := boot |} =
        (inl (invalid_argument what),
         {| self := timer (sec 2) (sec 2) 1 false; os := boot |})) /\
  set_speed_factor 0.75 {| self := timer (sec 2) (sec 2) 1 false; os := boot |} =
    (inr tt, {| self := timer (sec 2) (sec 2) 0.75 false; os := boot |}).
Proof.
  split; [ | split; [ | split; [ | split ] ] ].
  - instance_of (proj1 (set_speed_factor_validation
                          (timer (sec 2) (sec 2) 2 true) (armed (sec 1) (sec 1)) 0)).
  - instance_of (proj1 (set_speed_factor_validation
                          (timer (sec 2) (sec 2) 2 true) (armed (sec 1) (sec 1)) (-1))).
  - instance_of (proj1 (set_speed_factor_validation
                          (timer (sec 2) (sec 2) 2 true) (armed (sec 1) (sec 1)) nan)).
  - instance_of (proj1 (set_speed_factor_validation
                          (timer (sec 2) (sec 2) 1 false) boot infinity)).
  - instance_of (proj1 (proj2 (set_speed_factor_validation
                                 (timer (sec 2) (sec 2) 1 false) boot 0.75))).
Defined.

(** [set_speed_factor_running] on the running timer: with the filter
    installed the first call fails; with the factor [2^-1000] the rescaled
    interval is no [long] and the second call fails, the speed factor
    still 2; with the factor 4 both calls succeed. *)
Lemma set_speed_factor_running_witness :
  set_speed_factor 4 {| self := timer (sec 2) (sec 2) 2 true;
                        os := armed_denied (sec 1) half_sec |} =
    (inl (system_error Linux.EPERM "call of setitimer failed"),
     {| self := timer (sec 2) (sec 2) 2 true; os := armed_denied (sec 1) half_sec |}) /\
  set_speed_factor 0x1p-1000 started =
    (inl (system_error Linux.EINVAL "call of setitimer failed"),
     {| self := timer (sec 2) (sec 2) 2 true; os := boot |}) /\
  set_speed_factor 4 {| self := timer (sec 2) (sec 2) 2 true;
                        os := armed (sec 1) half_sec |} =
    (inr tt,
     {| self := timer (sec 2) (sec 2) 4 true;
        os := armed half_sec (mk_timeval 0 250000) |}).
Proof.
  split; [ | split ].
  - pose proof (set_speed_factor_running (timer (sec 2) (sec 2) 2 true)
                  (armed_denied (sec 1) half_sec) 4) as X.
    discharge X. destruct X as (X & _ & _). discharge X. conclude X.
  - pose proof (set_speed_factor_running (timer (sec 2) (sec 2) 2 true)
                  (armed (sec 1) (sec 1)) 0x1p-1000) as X.
    discharge X. destruct X as (_ & X & _). discharge X. conclude X.
  - pose proof (set_speed_factor_running (timer (sec 2) (sec 2) 2 true)
                  (armed (sec 1) half_sec) 4) as X.
    discharge X. destruct X as (_ & _ & X & _). discharge X. conclude X.
Defined.

(** [to_fstream_spec] on a stopped timer, half a second before the next
    expiry of a running one, and with the filter installed; the size of a
    record and what it decodes to. *)
Lemma to_fstream_spec_witness :
  to_fstream {| o_fail := false; o_data := [] |}
             {| self := timer (sec 5) (sec 2) 2 false; os := boot |} =
    (inr {| o_fail := false;
            o_data := bytes_of_itimerval {| it_interval := sec 2; it_value := sec 5 |} |},
     {| self := timer (sec 5) (sec 2) 2 false; os := boot |}) /\
  to_fstream {| o_fail := false; o_data := [] |}
             {| self := timer (sec 2) (sec 2) 2 true; os := armed (sec 1) half_sec |} =
    (inr {| o_fail := false;
            o_data := bytes_of_itimerval {| it_interval := sec 2; it_value := sec 1 |} |},
     {| self := timer (sec 2) (sec 2) 2 true; os := armed (sec 1) half_sec |}) /\
  to_fstream {| o_fail := false; o_data := [] |}
             {| self := timer (sec 2) (sec 2) 2 true;
                os := armed_denied (sec 1) half_sec |} =
    (inl (system_error Linux.EPERM "call of getitimer failed"),
     {| self := timer (sec 2) (sec 2) 2 true; os := armed_denied (sec 1) half_sec |}) /\
  length (bytes_of_itimerval {| it_interval := sec 2; it_value := sec 5 |}) = 32%nat /\
  itimerval_of_bytes
    (bytes_of_itimerval {| it_interval := sec 2; it_value := mk_timeval (-1) 999999 |}) =
    {| it_interval := sec 2; it_value := mk_timeval (-1) 999999 |}.
Proof.
  split; [ | split; [ | split; [ | split ] ] ].
  - pose proof (to_fstream_spec (timer (sec 5) (sec 2) 2 false) boot
                  {| o_fail := false; o_data := [] |}) as X.
    discharge X. destruct X as (X & _). discharge X. conclude X.
  - pose proof (to_fstream_spec (timer (sec 2) (sec 2) 2 true) (armed (sec 1) half_sec)
                  {| o_fail := false; o_data := [] |}) as X.
    discharge X. destruct X as (_ & X & _). discharge X. conclude X.
  - pose proof (to_fstream_spec (timer (sec 2) (sec 2) 2 true)
                  (armed_denied (sec 1) half_sec)
                  {| o_fail := false; o_data := [] |}) as X.
    discharge X. destruct X as (_ & _ & X & _). discharge X. conclude X.
  - pose proof (to_fstream_spec (timer (sec 5) (sec 2) 2 false) boot
                  {| o_fail := false; o_data := [] |}) as X.
    discharge X. destruct X as (_ & _ & _ & X & _).
    exact (X {| it_interval := sec 2; it_value := sec 5 |}).
  - pose proof (to_fstream_spec (timer (sec 5) (sec 2) 2 false) boot
                  {| o_fail := false; o_data := [] |}) as X.
    discharge X. destruct X as (_ & _ & _ & _ & X & _).
    apply (X {| it_interval := sec 2; it_value := mk_timeval (-1) 999999 |});
      split; reflexivity.
Defined.

(** C6 as the specification words it fails on the running timer of
    [Example]: the clock runs with the interval and the value of one second
    (the two seconds of the timer at speed 2), and the record [to_fstream]
    writes holds two seconds in both places. *)
Lemma to_fstream_running_record_not_live :
  running (self started) = true /\
  out (fst (getitimer (type (self started)) (os started))) =
    {| it_interval := sec 1; it_value := sec 1 |} /\
  fst (to_fstream {| o_fail := false; o_data := [] |} started) =
    inr {| o_fail := false;
           o_data := bytes_of_itimerval {| it_interval := sec 2; it_value := sec 2 |} |} /\
  fst (to_fstream {| o_fail := false; o_data := [] |} started) <>
    inr {| o_fail := false;
           o_data := bytes_of_itimerval
                       (out (fst (getitimer (type (self started)) (os started)))) |}.
Proof. vm_compute. repeat split; discriminate. Qed.

(** [snapshot_roundtrip]: a timer at speed 2 writes its snapshot; a timer
    at speed 1 reads it and runs at speed 1 still; the running timer cannot
    read it. *)
Lemma snapshot_roundtrip_witness :
  exists file : list byte,
    to_fstream {| o_fail := false; o_data := [] |}
               {| self := timer (sec 5) (sec 2) 2 false; os := boot |} =
      (inr {| o_fail := false; o_data := file |},
       {| self := timer (sec 5) (sec 2) 2 false; os := boot |}) /\
    from_fstream {| i_fail := false; i_rest := file |}
                 {| self := timer (sec 1) (sec 1) 1 false; os := boot |} =
      (inr {| i_fail := false; i_rest := [] |},
       {| self := timer (sec 5) (sec 2) 1 false; os := boot |}) /\
    from_fstream {| i_fail := false; i_rest := file |} started =
      (inl (logic_error "timer is running"), started).
Proof.
  destruct (snapshot_roundtrip (timer (sec 5) (sec 2) 2 false) boot
              {| o_fail := false; o_data := [] |}
              eq_refl (conj eq_refl eq_refl) (conj eq_refl eq_refl) eq_refl)
    as (file & Hwrite & Hread & Hrunning).
  exists file. split; [ exact Hwrite | split ].
  - specialize (Hread (timer (sec 1) (sec 1) 1 false) boot [] eq_refl).
    rewrite app_nil_r in Hread. exact Hread.
  - rewrite started_is. apply Hrunning. reflexivity.
Defined.

(** [no_validation_before_start]: the interval [{0, -500000}] at speed 1
    passes the checks of [start()] and is turned down by the kernel. *)
Lemma no_validation_before_start_witness :
  start {| self := ITimer_ctor ITIMER_REAL (of_timeval (mk_timeval 0 (-500000)));
           os := boot |} =
    (inl (system_error Linux.EINVAL "call of setitimer failed"),
     {| self := ITimer_ctor ITIMER_REAL (of_timeval (mk_timeval 0 (-500000)));
        os := boot |}) /\
  start {| self := ITimer_ctor ITIMER_REAL (of_timeval (mk_timeval (-1) 0));
           os := boot |} =
    (inl (runtime_error "timer interval is negative"),
     {| self := ITimer_ctor ITIMER_REAL (of_timeval (mk_timeval (-1) 0));
        os := boot |}).
Proof.
  split.
  - pose proof (proj1 (proj2 (proj2 (proj2 (proj2 (proj2 (proj2 (proj2
                  no_validation_before_start)))))))
                (ITimer_ctor ITIMER_REAL (of_timeval (mk_timeval 0 (-500000))))
                boot) as X.
    discharge X. destruct X as [X _]. discharge X. conclude X.
  - exact (proj1 (proj2 (proj2 (proj2 (proj2 (proj2 no_validation_before_start)))))
             ITIMER_REAL boot).
Defined.

Lemma two_timers_reachable : reachable two_timers.
Proof.
  apply (reachable_step one_timer).
  - apply (reachable_step (process_init boot)); [ apply reachable_init | ].
    exact (step_construct Real (of_double 2) (process_init boot) _ _ eq_refl).
  - exact (step_construct Virtual (of_double 1) one_timer _ _ eq_refl).
Qed.

(** [one_timer_per_type] on a process that has constructed an
    [ITimer_Real] and an [ITimer_Virtual]: one live timer of each; a second
    [ITimer_Real] throws; an [ITimer_Prof] can be built. *)
Lemma one_timer_per_type_witness :
  ((live Real (objects two_timers) <= 1)%nat /\
   (instance_exists Real (globals two_timers) = true <->
    live Real (objects two_timers) = 1%nat)) /\
  construct Real (of_double 3) (globals two_timers) =
    (inl (logic_error "instance exists"), globals two_timers) /\
  (exists s',
      construct Prof (of_double 3) (globals two_timers) =
        (inr (ITimer_ctor (which_of Prof) (of_double 3)), s') /\
      instance_exists Prof s' = true /\
      (forall c', c' <> Prof ->
         instance_exists c' s' = instance_exists c' (globals two_timers))).
Proof.
  split; [ | split ].
  - exact (proj1 one_timer_per_type two_timers two_timers_reachable Real).
  - exact (proj1 (proj2 (proj2 one_timer_per_type))
             Real (of_double 3) (globals two_timers) eq_refl).
  - exact (proj1 (proj2 (proj2 (proj2 one_timer_per_type)))
             Prof (of_double 3) (globals two_timers) eq_refl).
Defined.

(** ** Further properties on the Linux host *)

(** [ITimer_dtor_spec] on a stopped timer, on a running one, and on a
    running one with the filter installed. *)
Lemma ITimer_dtor_spec_witness :
  ITimer_dtor {| self := timer (sec 2) (sec 2) 2 false; os := armed (sec 1) half_sec |} =
    (destroyed, armed (sec 1) half_sec) /\
  ITimer_dtor {| self := timer (sec 2) (sec 2) 2 true; os := armed (sec 1) half_sec |} =
    (destroyed, boot) /\
  ITimer_dtor {| self := timer (sec 2) (sec 2) 2 true;
                 os := armed_denied (sec 1) half_sec |} =
    (exited 70, armed_denied (sec 1) half_sec).
Proof.
  split; [ | split ].
  - instance_of (proj1 (ITimer_dtor_spec (timer (sec 2) (sec 2) 2 false)
                          (armed (sec 1) half_sec))).
  - instance_of (proj1 (proj2 (ITimer_dtor_spec (timer (sec 2) (sec 2) 2 true)
                                 (armed (sec 1) half_sec)))).
  - instance_of (proj1 (proj2 (proj2 (ITimer_dtor_spec
                                        (timer (sec 2) (sec 2) 2 true)
                                        (armed_denied (sec 1) half_sec))))).
Defined.

(** [speed_change_exceptions]: [adjust_speed] on a stopped timer, and the
    two throwing calls of [set_speed_factor]. *)
Lemma speed_change_exceptions_witness :
  adjust_speed 4 doubled = (inl (runtime_error "timer not running"), doubled) /\
  ((exists what, invalid_argument "negative values not allowed" = invalid_argument what /\
                 doubled = doubled) \/
   (exists code, invalid_argument "negative values not allowed" =
                   system_error code "call of setitimer failed" /\
                 running (self doubled) = true /\ self doubled = self doubled)) /\
  (exists code,
      system_error Linux.EPERM "call of setitimer failed" =
        system_error code "call of setitimer failed" /\
      running (timer (sec 2) (sec 2) 2 true) = true /\
      timer (sec 2) (sec 2) 2 true = timer (sec 2) (sec 2) 2 true).
Proof.
  split; [ | split ].
  - instance_of (proj1 (speed_change_exceptions 4 doubled)).
  - pose proof (proj1 (proj2 (speed_change_exceptions 0 doubled))
                  (invalid_argument "negative values not allowed") doubled) as X.
    discharge X. exact X.
  - pose proof (proj2 (proj2 (speed_change_exceptions 4
                    {| self := timer (sec 2) (sec 2) 2 true;
                       os := armed_denied (sec 1) half_sec |}))
                  (system_error Linux.EPERM "call of setitimer failed")
                  {| self := timer (sec 2) (sec 2) 2 true;
                     os := armed_denied (sec 1) half_sec |}) as X.
    discharge X. exact X.
Defined.

(** [speed_factor_stays_valid] on the process with two timers. *)
Lemma speed_factor_stays_valid_witness :
  finite_positive (speed_factor (ITimer_ctor ITIMER_VIRTUAL (of_double 1))) = true.
Proof.
  exact (speed_factor_stays_valid two_timers two_timers_reachable
           0%nat Virtual (ITimer_ctor ITIMER_VIRTUAL (of_double 1)) eq_refl).
Defined.

(** [clock_type_never_changes]: [start()] on the timer of [Example]. *)
Lemma clock_type_never_changes_witness :
  type (self (snd (start doubled))) = type (self doubled).
Proof.
  exact (proj1 clock_type_never_changes unit start doubled member_start).
Defined.

(** [running_protects_interval_value]: [set_interval_value] and [stop] on
    the running timer of [Example]. *)
Lemma running_protects_interval_value_witness :
  (timer_interval (self (snd (set_interval_value (sec 1) (sec 5) started))) =
     timer_interval (self started) /\
   (running (self (snd (set_interval_value (sec 1) (sec 5) started))) = true ->
    timer_value (self (snd (set_interval_value (sec 1) (sec 5) started))) =
      timer_value (self started))) /\
  timer_interval (self (snd (stop started))) = timer_interval (self started).
Proof.
  split.
  - pose proof (running_protects_interval_value
                  (set_interval_value (sec 1) (sec 5)) started
                  (member_set_interval_value (sec 1) (sec 5))) as X.
    discharge X. exact X.
  - pose proof (running_protects_interval_value stop started member_stop) as X.
    discharge X. exact (proj1 X).
Defined.


(** [snapshot_read_then_write]: the record of a value with a negative
    field, read and written again. *)
Lemma snapshot_read_then_write_witness :
  exists t',
    from_fstream
        {| i_fail := false;
           i_rest := bytes_of_itimerval {| it_interval := sec 2;
                                           it_value := mk_timeval (-1) 999999 |} ++ [] |}
        {| self := timer (sec 1) (sec 1) 2 false; os := boot |} =
      (inr {| i_fail := false; i_rest := [] |}, {| self := t'; os := boot |}) /\
    to_fstream {| o_fail := false; o_data := [] |} {| self := t'; os := boot |} =
      (inr {| o_fail := false;
              o_data := [] ++ bytes_of_itimerval
                                {| it_interval := sec 2;
                                   it_value := mk_timeval (-1) 999999 |} |},
       {| self := t'; os := boot |}).
Proof.
  exact (snapshot_read_then_write (timer (sec 1) (sec 1) 2 false) boot
           (bytes_of_itimerval {| it_interval := sec 2;
                                  it_value := mk_timeval (-1) 999999 |})
           [] {| o_fail := false; o_data := [] |} eq_refl eq_refl eq_refl).
Defined.

(** [running_snapshot_matches_stop] on the running timer of [Example],
    whose clock stands at one second for both calls. *)
Lemma running_snapshot_matches_stop_witness :
  fst (stop {| self := timer (sec 2) (sec 2) 2 true; os := armed (sec 1) (sec 1) |}) =
    inr tt /\
  fst (to_fstream {| o_fail := false; o_data := [] |}
         {| self := timer (sec 2) (sec 2) 2 true; os := armed (sec 1) (sec 1) |}) =
  fst (to_fstream {| o_fail := false; o_data := [] |}
         (snd (stop {| self := timer (sec 2) (sec 2) 2 true;
                       os := armed (sec 1) (sec 1) |}))).
Proof.
  instance_of (running_snapshot_matches_stop (timer (sec 2) (sec 2) 2 true)
                 (armed (sec 1) (sec 1)) {| o_fail := false; o_data := [] |}).
Defined.

(** [non_finite_seconds] on x86-64: a NaN becomes [LONG_MIN] in both
    fields. *)
Lemma non_finite_seconds_witness :
  double_to_timeval nan = {| tv_sec := LONG_MIN; tv_usec := LONG_MIN |}.
Proof.
  pose proof (non_finite_seconds nan) as X. discharge X.
  destruct X as (X & _). conclude X.
Defined.

(** [subsecond_scaling_by_one] at half a millisecond. *)
Lemma subsecond_scaling_by_one_witness :
  timeval_div (mk_timeval 0 500) 1 = mk_timeval 0 500 \/
  timeval_div (mk_timeval 0 500) 1 = mk_timeval 0 (500 - 1).
Proof.
  pose proof (subsecond_scaling_by_one 500) as X. cbv zeta in X.
  assert (h : 0 <= 500 < 1000) by lia. specialize (X h).
  exact (proj1 X).
Defined.

End OnLinux.
